(** * elm327diag: the PID catalog and the acquisition sweep

    A shallow embedding of [elm327diag.c].  The C [double] is Rocq's
    primitive binary64 float, so the decode functions are evaluated with
    the arithmetic of the machine; the [struct obdpid o[25]] array is a
    list of records updated by index; [main] runs in a small monad that
    threads the observable events of the run and carries the early
    [return] that the [QUERY_OR_ERR] macro performs.  [Process] takes
    [main] up again with the stream [fopen] returns, which may be [NULL],
    and follows it by the [exit] of the C runtime. *)

From Stdlib Require Import ZArith List String Ascii Bool Lia QArith.
From Stdlib Require Import Floats.PrimFloat Floats.SpecFloat Floats.FloatOps.
From Corelib Require Import Uint63Axioms.
From Stdlib Require Import Numbers.DecimalString.
Import ListNotations.

Local Open Scope string_scope.
Local Open Scope list_scope.
Local Open Scope Z_scope.

(** ** Data model *)

(** [typedef enum { INTEGER = 0, DOUBLE = 1 } DataType;] *)
Inductive DataType : Set := INTEGER | DOUBLE.

Definition DataType_to_int (d : DataType) : Z :=
  match d with INTEGER => 0 | DOUBLE => 1 end.

(** [typedef enum { PERCENT = 0, ..., KILOMETERSPERHOUR = 4 } Units;] *)
Inductive Units : Set := PERCENT | RPM | CELSIUS | PASCALS | KILOMETERSPERHOUR.

Definition Units_to_int (u : Units) : Z :=
  match u with
  | PERCENT => 0 | RPM => 1 | CELSIUS => 2 | PASCALS => 3
  | KILOMETERSPERHOUR => 4
  end.

(** [struct obdpid].  [bytes] is a [size_t]; [calculate] is the function
    pointer [double ( *calculate)(double, double)]. *)
Record obdpid : Type := mk_obdpid {
  command     : Z;
  min         : float;
  max         : float;
  bytes       : N;
  datatype    : DataType;
  units       : Units;
  calculate   : float -> float -> float;
  commandname : string
}.

(** Assignments to one field of a struct. *)
Definition set_command (v : Z) (e : obdpid) : obdpid :=
  mk_obdpid v (min e) (max e) (bytes e) (datatype e) (units e)
            (calculate e) (commandname e).
Definition set_min (v : float) (e : obdpid) : obdpid :=
  mk_obdpid (command e) v (max e) (bytes e) (datatype e) (units e)
            (calculate e) (commandname e).
Definition set_max (v : float) (e : obdpid) : obdpid :=
  mk_obdpid (command e) (min e) v (bytes e) (datatype e) (units e)
            (calculate e) (commandname e).
Definition set_bytes (v : N) (e : obdpid) : obdpid :=
  mk_obdpid (command e) (min e) (max e) v (datatype e) (units e)
            (calculate e) (commandname e).
Definition set_datatype (v : DataType) (e : obdpid) : obdpid :=
  mk_obdpid (command e) (min e) (max e) (bytes e) v (units e)
            (calculate e) (commandname e).
Definition set_units (v : Units) (e : obdpid) : obdpid :=
  mk_obdpid (command e) (min e) (max e) (bytes e) (datatype e) v
            (calculate e) (commandname e).
Definition set_calculate (v : float -> float -> float) (e : obdpid) : obdpid :=
  mk_obdpid (command e) (min e) (max e) (bytes e) (datatype e) (units e)
            v (commandname e).
Definition set_commandname (v : string) (e : obdpid) : obdpid :=
  mk_obdpid (command e) (min e) (max e) (bytes e) (datatype e) (units e)
            (calculate e) v.

(** [o[j].field = v]: the slot [j] of the array is rewritten by [f].  The
    source only writes inside the 25 slots; outside the list nothing is
    written. *)
Fixpoint upd (j : nat) (f : obdpid -> obdpid) (o : list obdpid) : list obdpid :=
  match o, j with
  | [], _ => []
  | e :: o', O => f e :: o'
  | e :: o', S j' => e :: upd j' f o'
  end.

(** ** Decode functions *)

(** [double rpmcalc(double a, double b) { return ((a*256)+b)/4; }] *)
Definition rpmcalc (a b : float) : float := (((a * 256) + b) / 4)%float.

(** [double stdcalc(double a, double b) { return a; }] *)
Definition stdcalc (a b : float) : float := a.

(** The conversion [(double) c] of an [unsigned char], and of an integer
    constant in the range of a byte. *)
Definition double_of_Z (z : Z) : float := of_uint63 (of_Z z).
Definition double_of_uchar (c : Byte.byte) : float :=
  double_of_Z (Z.of_N (Byte.to_N c)).

(** The exact rational a double stands for, when it is finite. *)
Definition SF2Q (x : spec_float) : option Q :=
  match x with
  | S754_zero _ => Some (0 # 1)
  | S754_finite s m e =>
      let n := if s then Z.neg m else Z.pos m in
      Some (match e with
            | Z0 => n # 1
            | Z.pos p => (n * 2 ^ Z.pos p) # 1
            | Z.neg p => n # (2 ^ p)
            end)
  | S754_infinity _ | S754_nan => None
  end.

Definition double_to_Q (x : float) : option Q := SF2Q (Prim2SF x).

(** ** The catalog *)

(** [void setupcommands(struct obdpid o[25])], assignment by assignment. *)
Definition setupcommands (o : list obdpid) : list obdpid :=
  let o := upd 3 (set_datatype INTEGER) o in
  let o := upd 3 (set_command 0x03) o in
  let o := upd 3 (set_commandname "Fuel System Status") o in
  let o := upd 3 (set_bytes 1) o in

  let o := upd 4 (set_datatype INTEGER) o in
  let o := upd 4 (set_command 0x04) o in
  let o := upd 4 (set_commandname "Calculated Engine Load") o in
  let o := upd 4 (set_min 0%float) o in
  let o := upd 4 (set_max 100%float) o in
  let o := upd 4 (set_units PERCENT) o in
  let o := upd 4 (set_bytes 1) o in

  let o := upd 5 (set_datatype INTEGER) o in
  let o := upd 5 (set_command 0x05) o in
  let o := upd 5 (set_commandname "Engine Coolant Temperature") o in
  let o := upd 5 (set_min (-40)%float) o in
  let o := upd 5 (set_max 215%float) o in
  let o := upd 5 (set_units CELSIUS) o in
  let o := upd 5 (set_bytes 1) o in

  let o := upd 10 (set_datatype INTEGER) o in
  let o := upd 10 (set_command 0x0A) o in
  let o := upd 10 (set_commandname "Fuel Gauge Pressure") o in
  let o := upd 10 (set_min 0%float) o in
  let o := upd 10 (set_max 765%float) o in
  let o := upd 10 (set_units PASCALS) o in
  let o := upd 10 (set_bytes 1) o in

  let o := upd 11 (set_datatype INTEGER) o in
  let o := upd 11 (set_command 0x0B) o in
  let o := upd 11 (set_commandname "Intake Manifold Absolute Pressure") o in
  let o := upd 11 (set_min 0%float) o in
  let o := upd 11 (set_max 255%float) o in
  let o := upd 11 (set_units PASCALS) o in
  let o := upd 11 (set_bytes 1) o in

  let o := upd 12 (set_datatype DOUBLE) o in
  let o := upd 12 (set_command 0x0C) o in
  let o := upd 12 (set_commandname "Engine Speed") o in
  let o := upd 12 (set_min 0%float) o in
  let o := upd 12 (set_max 16383.75%float) o in
  let o := upd 12 (set_units RPM) o in
  let o := upd 12 (set_bytes 2) o in
  let o := upd 12 (set_calculate rpmcalc) o in

  let o := upd 13 (set_datatype INTEGER) o in
  let o := upd 13 (set_command 0x0D) o in
  let o := upd 13 (set_commandname "Vehicle Speed") o in
  let o := upd 13 (set_min 0%float) o in
  let o := upd 13 (set_max 255%float) o in
  let o := upd 13 (set_units KILOMETERSPERHOUR) o in
  let o := upd 13 (set_bytes 1) o in
  o.

(** A counted loop [for (i = j; i < j + n; i++) body] over a value. *)
Fixpoint for_up {A : Type} (n : nat) (j : nat) (body : nat -> A -> A) (a : A) : A :=
  match n with
  | O => a
  | S n' => for_up n' (S j) body (body j a)
  end.

(** The first loop of [main]:
    [for (int i = 0; i < 25; i++) { o[i].bytes = 0; o[i].calculate = stdcalc; }] *)
Definition init_slots (o : list obdpid) : list obdpid :=
  for_up 25 0 (fun i o =>
    let o := upd i (set_bytes 0) o in
    let o := upd i (set_calculate stdcalc) o in
    o) o.

(** The catalog [main] sweeps: [struct obdpid o[25]] is declared without an
    initialiser, so it starts from whatever the 25 slots [o0] hold. *)
Definition main_catalog (o0 : list obdpid) : list obdpid :=
  setupcommands (init_slots o0).

(** [o[j].bytes > 0] *)
Definition active (e : obdpid) : bool := (0 <? bytes e)%N.

(** ** Command line *)

(** Default values for the options. *)
Definition DEFAULT_DEVICE_NAME : string := "/dev/pts/8".
Definition DEFAULT_OUTPUT_FILE : string := "carstats.csv".

(** [parse_args]: the loop over [argv[1..]].  [help] is raised when no
    argument is given or when [-d] or [-f] comes last; any other word is
    skipped.  [None] stands for the usage text followed by [exit(1)];
    otherwise the pair is the value of the globals [device_name] and
    [output_file] after the call. *)
Fixpoint parse_loop (args : list string) (device_name output_file : string)
  : option (string * string) :=
  match args with
  | [] => Some (device_name, output_file)
  | a :: rest =>
      if String.eqb a "-d" then
        match rest with
        | v :: rest' => parse_loop rest' v output_file
        | [] => None
        end
      else if String.eqb a "-f" then
        match rest with
        | v :: rest' => parse_loop rest' device_name v
        | [] => None
        end
      else parse_loop rest device_name output_file
  end.

Definition parse_args (argv : list string) : option (string * string) :=
  match argv with
  | _ :: ((_ :: _) as args) => parse_loop args DEFAULT_DEVICE_NAME DEFAULT_OUTPUT_FILE
  | _ => None
  end.

(** ** The C library's [%f] *)

(** The line feed, [\n] in the format strings of the source. *)
Definition LF : string := String (ascii_of_N 10) "".

(** [n / d] rounded to the nearest integer, ties to the even one, for
    [0 <= n]: the rounding [printf] applies in the default rounding mode. *)
Definition round_half_even (n : Z) (d : positive) : Z :=
  let q := n / Z.pos d in
  let r2 := 2 * (n mod Z.pos d) in
  if r2 <? Z.pos d then q
  else if Z.pos d <? r2 then q + 1
  else if Z.even q then q else q + 1.

(** The last [k] decimal digits of [n], zero-padded. *)
Fixpoint digits (k : nat) (n : Z) : string :=
  match k with
  | O => ""
  | S k' => digits k' (n / 10) ++ String (ascii_of_N (48 + Z.to_N (n mod 10))) ""
  end.

(** The conversion [%f] of [printf] (precision 6) of a double: the exact
    value of the double rounded to six decimals.  Rocq's floats have one
    NaN, printed [nan]. *)
Definition format_f (x : float) : string :=
  match Prim2SF x with
  | S754_nan => "nan"
  | S754_infinity s => (if s then "-" else "") ++ "inf"
  | S754_zero s => (if s then "-" else "") ++ "0.000000"
  | S754_finite s m e =>
      let n := match e with
               | Z0 => Z.pos m * 1000000
               | Z.pos p => Z.pos m * 2 ^ Z.pos p * 1000000
               | Z.neg p => round_half_even (Z.pos m * 1000000) (2 ^ p)
               end in
      (if s then "-" else "")
        ++ NilZero.string_of_uint (N.to_uint (Z.to_N (n / 1000000)))
        ++ "." ++ digits 6 (n mod 1000000)
  end.

(** [fprintf(out, "%s, %f\n", name, r)]: the text it writes. *)
Definition report_line (name : string) (r : float) : string :=
  name ++ ", " ++ format_f r ++ LF.

(** ** The transport and the run *)

(** Modelled from the spec: [elm327.h] and the library behind it are not
    among the sources.  A message is an array of [unsigned char]; a Mode-1
    request carries the mode and the PID; [elm327_send_msg] returns [-1]
    when the request cannot be sent; [elm327_recv_msgs] returns the array
    of received messages, or [NULL] when none arrived in time. *)
Definition elm327_msg_t : Type := list Byte.byte.
Definition OBD_MODE : Type := Z.
Definition OBD_PARAM : Type := Z.
Definition OBD_MODE_1 : OBD_MODE := 1.

(** What the adapter does with one request: whether the send goes through
    and, if so, what the following receive yields ([None] is [NULL]). *)
Record exchange : Type := mk_exchange {
  send_ok : bool;
  reply   : option (list elm327_msg_t)
}.

(** What a run does, in order.  [EvFopen] is an [fopen] that returns a
    stream and [EvFopenNull] one that returns [NULL]; [EvExitClose] is the
    C runtime closing, at [exit], a stream the program left open. *)
Inductive event : Type :=
| EvStdout (s : string)
| EvInit (device : string)
| EvSetTimeout (ms : Z)
| EvFopen (path mode : string)
| EvSend (mode : OBD_MODE) (pid : OBD_PARAM)
| EvRecv
| EvFlush
| EvDestroy (msgs : option (list elm327_msg_t))
| EvFprintfOut (name : string) (r : float)
| EvFclose
| EvShutdown
| EvFopenNull (path mode : string)
| EvExitClose.

(** The state a run threads: the events so far, the number of requests
    handed to the adapter, and the answer waiting to be received. *)
Record world : Type := mk_world {
  events    : list event;
  exchanges : nat;
  pending   : option (list elm327_msg_t)
}.

Definition w_init : world := mk_world [] 0 None.

(** A step of [main] either goes on with a value or ends the process with
    a status: by [return] from [main] or by [exit]. *)
Inductive outcome (A : Type) : Type :=
| Next (a : A)
| Exit (status : Z).
Arguments Next {A} a.
Arguments Exit {A} status.

Definition M (A : Type) : Type := world -> outcome A * world.

Definition ret {A : Type} (a : A) : M A := fun w => (Next a, w).

Definition bind {A B : Type} (m : M A) (f : A -> M B) : M B :=
  fun w =>
    match m w with
    | (Next a, w') => f a w'
    | (Exit c, w') => (Exit c, w')
    end.

Definition exit_ {A : Type} (c : Z) : M A := fun w => (Exit c, w).

Definition emit (ev : event) : M unit :=
  fun w => (Next tt, mk_world (events w ++ [ev]) (exchanges w) (pending w)).

Notation "x <- m ;; k" := (bind m (fun x => k))
  (at level 61, m at next level, right associativity).
Notation "m ;; k" := (bind m (fun _ => k))
  (at level 61, right associativity).

(** [for (int j = j0; j < j0 + n; j++) body] *)
Fixpoint for_ (n : nat) (j : nat) (body : nat -> M unit) : M unit :=
  match n with
  | O => ret tt
  | S n' => body j ;; for_ n' (S j) body
  end.

Section Run.

(** The adapter at the other end of the line: its answer to the [i]-th
    request of the run (counted from 0), given the mode and PID asked. *)
Variable adapter : nat -> OBD_MODE -> OBD_PARAM -> exchange.

(** The descriptor [elm327_init] yields for a device name. *)
Variable elm_open : string -> Z.

Definition elm327_init (device : string) : M Z :=
  emit (EvInit device) ;; ret (elm_open device).

Definition elm327_set_timeout (ms : Z) : M unit := emit (EvSetTimeout ms).

Definition elm327_send_msg (fd : Z) (mode : OBD_MODE) (pid : OBD_PARAM) : M Z :=
  fun w =>
    let x := adapter (exchanges w) mode pid in
    (Next (if send_ok x then 0 else -1),
     mk_world (events w ++ [EvSend mode pid]) (S (exchanges w))
              (if send_ok x then reply x else None)).

Definition elm327_recv_msgs (fd : Z) : M (option (list elm327_msg_t)) :=
  fun w => (Next (pending w), mk_world (events w ++ [EvRecv]) (exchanges w) None).

Definition elm327_flush (fd : Z) : M unit :=
  fun w => (Next tt, mk_world (events w ++ [EvFlush]) (exchanges w) None).

Definition elm327_destroy_recv_msgs (msgs : option (list elm327_msg_t)) : M unit :=
  emit (EvDestroy msgs).

Definition elm327_shutdown (fd : Z) : M unit := emit EvShutdown.

(** [fopen], [fprintf(out, ...)], [fclose(out)] and [fprintf(stdout, ...)].
    The source does not test what [fopen] returns; the run modelled here is
    the one where the stream was opened.  The run where [fopen] returns
    [NULL] is that of [Process.main] below, which agrees with this one
    when the report opens. *)
Definition fopen (path mode : string) : M unit := emit (EvFopen path mode).
Definition fprintf_out (name : string) (r : float) : M unit :=
  emit (EvFprintfOut name r).
Definition fclose : M unit := emit EvFclose.
Definition fprintf_stdout (s : string) : M unit := emit (EvStdout s).

(** [int query_elm(fd, mode, pid, msgs, n_msgs, ascii)]: the status and the
    value left in [*msgs] (untouched when the send fails).  The request
    [elm327_create_msg] builds is the mode and the PID. *)
Definition query_elm (fd : Z) (mode : OBD_MODE) (pid : OBD_PARAM)
    (msgs : option (list elm327_msg_t)) : M (Z * option (list elm327_msg_t)) :=
  r <- elm327_send_msg fd mode pid ;;
  if r =? -1 then ret (1, msgs)
  else
    m <- elm327_recv_msgs fd ;;
    match m with
    | None => ret (2, None)
    | Some _ => elm327_flush fd ;; ret (0, m)
    end.

(** The macro [QUERY_OR_ERR]: on a non-zero status the messages are
    destroyed and the enclosing function, [main], returns the status. *)
Definition QUERY_OR_ERR (fd : Z) (mode : OBD_MODE) (pid : OBD_PARAM)
    (recv : option (list elm327_msg_t)) : M (option (list elm327_msg_t)) :=
  q <- query_elm fd mode pid recv ;;
  if negb (fst q =? 0)
  then elm327_destroy_recv_msgs (snd q) ;; exit_ (fst q)
  else ret (snd q).

(** [( *recv_msg)[k]]: byte [k] of the first message received.  Past the
    end of what was received the model reads 0. *)
Definition msg_byte (recv_msg : option (list elm327_msg_t)) (k : nat) : Byte.byte :=
  match recv_msg with
  | Some (m :: _) => nth k m Byte.x00
  | _ => Byte.x00
  end.

(** The body of the second loop of [main] for one slot of the array. *)
Definition gather_entry (elm_fd : Z) (e : obdpid) : M unit :=
  if (0 <? bytes e)%N then
    recv_msg <- QUERY_OR_ERR elm_fd OBD_MODE_1 (command e) None ;;
    let b1 := double_of_uchar (msg_byte recv_msg 2) in
    let b2 := double_of_uchar (msg_byte recv_msg 3) in
    let r := calculate e b1 b2 in
    elm327_destroy_recv_msgs recv_msg ;;
    fprintf_out (commandname e) r
  else ret tt.

Definition gather_body (elm_fd : Z) (o : list obdpid) (j : nat) : M unit :=
  match nth_error o j with
  | Some e => gather_entry elm_fd e
  | None => ret tt
  end.

(** The block of [main] that gathers the data: from
    [fprintf(stdout, "gathering data...\n")] to [fclose(out)]. *)
Definition gather_data (elm_fd : Z) (output_file : string) (o : list obdpid) : M unit :=
  fprintf_stdout ("gathering data..." ++ LF) ;;
  fopen output_file "w" ;;
  for_ 25 0 (gather_body elm_fd o) ;;
  fprintf_stdout ("done" ++ LF) ;;
  fclose.

(** The usage text [parse_args] prints before [exit(1)]. *)
Definition usage (argv0 : string) : list string :=
  ["-------- elm327diag - Diagnostics Utility for ELM327 Devices --------" ++ LF;
   "Description:" ++ LF;
   "  This program is for interfacing with ELM327 serial devices which can " ++ LF;
   "  read diagnostic data through a vehicle's ODBII port." ++ LF;
   "Usage:" ++ LF;
   "  " ++ argv0 ++ " <option> [<option>...]" ++ LF;
   "Options:" ++ LF;
   "  -d <string>  device name (default: " ++ DEFAULT_DEVICE_NAME ++ ")" ++ LF;
   "  -f <string>  output file name (default: " ++ DEFAULT_OUTPUT_FILE ++ ")" ++ LF;
   "  -o           dummy option (useful because at least one option is needed)" ++ LF
  ]%string.

Fixpoint printf_all (lines : list string) : M unit :=
  match lines with
  | [] => ret tt
  | s :: rest => fprintf_stdout s ;; printf_all rest
  end.

(** [int main(int argc, char* argv[])], started on an array [o] whose 25
    slots hold [o0]. *)
Definition main (argv : list string) (o0 : list obdpid) : M unit :=
  match parse_args argv with
  | None => printf_all (usage (hd "" argv)) ;; exit_ 1
  | Some (device_name, output_file) =>
      fprintf_stdout ("initializing connection" ++ LF) ;;
      elm_fd <- elm327_init device_name ;;
      elm327_set_timeout 3000 ;;
      fprintf_stdout ("initializing vehicle info pids" ++ LF) ;;
      let o := init_slots o0 in
      let o := setupcommands o in
      gather_data elm_fd output_file o ;;
      elm327_shutdown elm_fd
  end.

End Run.

(** ** Reading a trace *)

(** The PIDs requested, in order. *)
Definition queried (t : list event) : list OBD_PARAM :=
  flat_map (fun ev => match ev with EvSend _ pid => [pid] | _ => [] end) t.

(** The readings written to the report, in order. *)
Definition readings (t : list event) : list (string * float) :=
  flat_map (fun ev => match ev with EvFprintfOut n r => [(n, r)] | _ => [] end) t.

(** The text of the report file: what the [fprintf(out, ...)] calls wrote. *)
Definition report (t : list event) : string :=
  String.concat "" (map (fun nr => report_line (fst nr) (snd nr)) (readings t)).

(** How many times an event of a kind occurs. *)
Definition is_fopen (ev : event) : bool :=
  match ev with EvFopen _ _ => true | _ => false end.
Definition is_fclose (ev : event) : bool :=
  match ev with EvFclose => true | _ => false end.
Definition is_send (ev : event) : bool :=
  match ev with EvSend _ _ => true | _ => false end.
Definition is_shutdown (ev : event) : bool :=
  match ev with EvShutdown => true | _ => false end.
Definition count (p : event -> bool) (t : list event) : nat :=
  List.length (filter p t).

(** ** What one exchange contributes to a run *)

(** The status [query_elm] returns for an exchange: 1 when the send fails,
    2 when nothing is received, 0 otherwise. *)
Definition status_of (x : exchange) : Z :=
  if send_ok x then
    match reply x with Some _ => 0 | None => 2 end
  else 1.

(** An exchange goes through when the request is sent and messages come
    back. *)
Definition answered (x : exchange) : bool :=
  send_ok x && match reply x with Some _ => true | None => false end.

(** The value the loop body computes from the messages received. *)
Definition decode (e : obdpid) (recv_msg : option (list elm327_msg_t)) : float :=
  calculate e (double_of_uchar (msg_byte recv_msg 2))
              (double_of_uchar (msg_byte recv_msg 3)).

(** The events of the loop body for an active entry, by exchange. *)
Definition entry_trace (x : exchange) (e : obdpid) : list event :=
  EvSend OBD_MODE_1 (command e) ::
  (if send_ok x then
     EvRecv ::
     match reply x with
     | Some m =>
         [EvFlush; EvDestroy (Some m);
          EvFprintfOut (commandname e) (decode e (Some m))]
     | None => [EvDestroy None]
     end
   else [EvDestroy None]).

Section Semantics.

Variable adapter : nat -> OBD_MODE -> OBD_PARAM -> exchange.
Variable elm_fd : Z.

(** The loop of [main] as a recursion over the slots themselves. *)
Fixpoint gather_list (l : list obdpid) : M unit :=
  match l with
  | [] => ret tt
  | e :: l' => gather_entry adapter elm_fd e ;; gather_list l'
  end.

(** The sweep over a list of active entries, the [n]-th request of the run
    being the next: its events and its status (0, or that of the first
    failed exchange, where the run stops). *)
Fixpoint sweep_trace (n : nat) (l : list obdpid) : list event :=
  match l with
  | [] => []
  | e :: l' =>
      let x := adapter n OBD_MODE_1 (command e) in
      entry_trace x e ++ (if status_of x =? 0 then sweep_trace (S n) l' else [])
  end.

Fixpoint sweep_status (n : nat) (l : list obdpid) : Z :=
  match l with
  | [] => 0
  | e :: l' =>
      let x := adapter n OBD_MODE_1 (command e) in
      if status_of x =? 0 then sweep_status (S n) l' else status_of x
  end.

(** The readings a sweep that is not interrupted reports. *)
Fixpoint expected_readings (n : nat) (l : list obdpid) : list (string * float) :=
  match l with
  | [] => []
  | e :: l' =>
      (commandname e, decode e (reply (adapter n OBD_MODE_1 (command e))))
        :: expected_readings (S n) l'
  end.

(** Every exchange of a sweep over [l] goes through, the [n]-th request of
    the run being the next. *)
Fixpoint all_answered (n : nat) (l : list obdpid) : bool :=
  match l with
  | [] => true
  | e :: l' =>
      answered (adapter n OBD_MODE_1 (command e)) && all_answered (S n) l'
  end.

End Semantics.

(** ** Specification-side definitions *)

(** The payload of an exchange that went through: the two bytes that
    follow the two bytes of header in the first message received. *)
Definition payload (x : exchange) : option (Byte.byte * Byte.byte) :=
  if send_ok x then
    match reply x with
    | Some ((_ :: _ :: p1 :: p2 :: _) :: _) => Some (p1, p2)
    | _ => None
    end
  else None.

(** The byte values, and a property checked on every pair of them. *)
Definition byte_values : list Z := map Z.of_nat (seq 0 256).

Definition for_all_bytes (P : Z -> Z -> bool) : bool :=
  forallb (fun a => forallb (P a) byte_values) byte_values.

(** The formula of the specification, over the rationals. *)
Definition rpmFormula (a b : Z) : Q :=
  (((inject_Z a * inject_Z 256) + inject_Z b) / inject_Z 4)%Q.

Definition rpm_exact (a b : Z) : bool :=
  match double_to_Q (rpmcalc (double_of_Z a) (double_of_Z b)) with
  | Some q => Qeq_bool q (rpmFormula a b)
  | None => false
  end.

(** A value within the range an entry declares, by the comparison of
    doubles. *)
Definition in_range (e : obdpid) (v : float) : bool :=
  (PrimFloat.leb (min e) v && PrimFloat.leb v (max e))%bool.

Definition rpm_bounded (a b : Z) : bool :=
  let v := rpmcalc (double_of_Z a) (double_of_Z b) in
  (PrimFloat.leb 0%float v && PrimFloat.leb v 16383.75%float)%bool.

(** ** Concrete inputs *)

(** Some content for the slots of the array before [main] writes to it. *)
Definition stack_junk : obdpid :=
  mk_obdpid 0x7f 1.5%float (-3)%float 9 DOUBLE RPM rpmcalc "".

(** An exchange that goes through and brings one message whose payload is
    [(p1, p2)]. *)
Definition answer (p1 p2 : Byte.byte) : exchange :=
  mk_exchange true (Some [[Byte.x41; Byte.x00; p1; p2]]).

Definition adapter_steady (i : nat) (mode : OBD_MODE) (pid : OBD_PARAM) : exchange :=
  answer Byte.x1a Byte.x2c.

(** An adapter that goes silent on the second request. *)
Definition adapter_silent_second (i : nat) (mode : OBD_MODE) (pid : OBD_PARAM)
  : exchange :=
  match i with
  | 1%nat => mk_exchange true None
  | _ => answer Byte.x5f Byte.x00
  end.

(** An adapter that cannot be written to. *)
Definition adapter_unplugged (i : nat) (mode : OBD_MODE) (pid : OBD_PARAM)
  : exchange :=
  mk_exchange false None.

(** The adapter of the end-to-end scenario. *)
Definition adapter_scenario (i : nat) (mode : OBD_MODE) (pid : OBD_PARAM)
  : exchange :=
  match i with
  | 0%nat => answer Byte.x5f Byte.x00
  | 1%nat => answer Byte.x1a Byte.x2c
  | _ => answer Byte.x3c Byte.x00
  end.

(** The catalog of the scenario: that of [main] with only coolant
    temperature, engine speed and vehicle speed left active. *)
Definition scenario_catalog : list obdpid :=
  upd 3 (set_bytes 0) (upd 4 (set_bytes 0) (upd 10 (set_bytes 0)
    (upd 11 (set_bytes 0) (main_catalog (repeat stack_junk 25))))).

Definition coolant : obdpid :=
  mk_obdpid 0x05 (-40)%float 215%float 1 INTEGER CELSIUS stdcalc
            "Engine Coolant Temperature".
Definition engine_speed : obdpid :=
  mk_obdpid 0x0C 0%float 16383.75%float 2 DOUBLE RPM rpmcalc "Engine Speed".
Definition vehicle_speed : obdpid :=
  mk_obdpid 0x0D 0%float 255%float 1 INTEGER KILOMETERSPERHOUR stdcalc
            "Vehicle Speed".

(** ** More readers of a trace *)

Definition is_destroy (ev : event) : bool :=
  match ev with EvDestroy _ => true | _ => false end.
Definition is_flush (ev : event) : bool :=
  match ev with EvFlush => true | _ => false end.
Definition is_recv (ev : event) : bool :=
  match ev with EvRecv => true | _ => false end.
Definition is_init (ev : event) : bool :=
  match ev with EvInit _ => true | _ => false end.

(** The modes of the requests sent, in order. *)
Definition modes (t : list event) : list OBD_MODE :=
  flat_map (fun ev => match ev with EvSend m _ => [m] | _ => [] end) t.

(** The decimal numeral of a natural number. *)
Definition decimal (n : Z) : string :=
  NilZero.string_of_uint (N.to_uint (Z.to_N n)).

(** The six decimals of a number of quarters. *)
Definition quarter_decimals (r : Z) : string :=
  if r =? 0 then "000000"
  else if r =? 1 then "250000"
  else if r =? 2 then "500000"
  else "750000".

(** What [%f] prints for the values the decoders give on bytes: the
    quarters of [rpmcalc] and the whole numbers of [stdcalc]. *)
Definition rpm_printed (a b : Z) : bool :=
  String.eqb (format_f (rpmcalc (double_of_Z a) (double_of_Z b)))
             (decimal ((a * 256 + b) / 4) ++ "."
              ++ quarter_decimals ((a * 256 + b) mod 4)).

Definition byte_printed (a : Z) : bool :=
  String.eqb (format_f (double_of_Z a)) (decimal a ++ ".000000").

(** ** The process, with a report that may fail to open *)

(** The readers of the two events of the C library that are not calls of
    the program, and the number of times the report is closed: by
    [fclose] or by the C runtime at [exit]. *)
Definition is_fopen_null (ev : event) : bool :=
  match ev with EvFopenNull _ _ => true | _ => false end.
Definition is_exit_close (ev : event) : bool :=
  match ev with EvExitClose => true | _ => false end.
Definition is_fprintf_out (ev : event) : bool :=
  match ev with EvFprintfOut _ _ => true | _ => false end.
Definition closes (t : list event) : nat :=
  (count is_fclose t + count is_exit_close t)%nat.

(** The streams opened and not closed yet. *)
Definition open_streams (t : list event) : nat :=
  (count is_fopen t - count is_fclose t)%nat.

(** The events of the loop body for an active entry when [out] is [NULL]:
    those of [entry_trace] up to the [fprintf(out, ...)] that never
    returns. *)
Definition null_entry_trace (x : exchange) (pid : OBD_PARAM) : list event :=
  EvSend OBD_MODE_1 pid ::
  (if send_ok x then
     EvRecv ::
     match reply x with
     | Some m => [EvFlush; EvDestroy (Some m)]
     | None => [EvDestroy None]
     end
   else [EvDestroy None]).

Declare Scope proc_scope.

(** [main] again, with the [FILE *] that [fopen] returns: [Some path] for a
    stream, [None] for [NULL].  Whether a path can be opened for writing is
    given by [can_open].  The source passes [out] to [fprintf] and [fclose]
    without testing it; on [NULL] both are undefined in C, and the C
    library ends the process there with a signal: [Killed]. *)
Module Process.

Inductive ending (A : Type) : Type :=
| Goes (a : A)
| Ends (status : Z)
| Killed.
Arguments Goes {A} a.
Arguments Ends {A} status.
Arguments Killed {A}.

Definition P (A : Type) : Type := world -> ending A * world.

Definition ret {A : Type} (a : A) : P A := fun w => (Goes a, w).

Definition bind {A B : Type} (m : P A) (f : A -> P B) : P B :=
  fun w =>
    match m w with
    | (Goes a, w') => f a w'
    | (Ends c, w') => (Ends c, w')
    | (Killed, w') => (Killed, w')
    end.

Notation "x <- m ;; k" := (bind m (fun x => k))
  (at level 61, m at next level, right associativity) : proc_scope.
Notation "m ;; k" := (bind m (fun _ => k))
  (at level 61, right associativity) : proc_scope.

(** A step of the run where the stream is not involved. *)
Definition lift {A : Type} (m : M A) : P A :=
  fun w =>
    match m w with
    | (Next a, w') => (Goes a, w')
    | (Exit c, w') => (Ends c, w')
    end.

Local Open Scope proc_scope.

Fixpoint for_ (n : nat) (j : nat) (body : nat -> P unit) : P unit :=
  match n with
  | O => ret tt
  | S n' => body j ;; for_ n' (S j) body
  end.

Section Run.

Variable adapter : nat -> OBD_MODE -> OBD_PARAM -> exchange.
Variable elm_open : string -> Z.
Variable can_open : string -> bool.

(** [fopen(path, mode)] *)
Definition fopen (path mode : string) : P (option string) :=
  fun w =>
    if can_open path
    then (Goes (Some path),
          mk_world (events w ++ [EvFopen path mode]) (exchanges w) (pending w))
    else (Goes None,
          mk_world (events w ++ [EvFopenNull path mode]) (exchanges w) (pending w)).

(** [fprintf(out, "%s, %f\n", name, r)] *)
Definition fprintf_out (out : option string) (name : string) (r : float) : P unit :=
  match out with
  | Some _ => lift (fprintf_out name r)
  | None => fun w => (Killed, w)
  end.

(** [fclose(out)] *)
Definition fclose (out : option string) : P unit :=
  match out with
  | Some _ => lift fclose
  | None => fun w => (Killed, w)
  end.

(** The body of the second loop of [main] for one slot of the array. *)
Definition gather_entry (out : option string) (elm_fd : Z) (e : obdpid) : P unit :=
  if (0 <? bytes e)%N then
    recv_msg <- lift (QUERY_OR_ERR adapter elm_fd OBD_MODE_1 (command e) None) ;;
    let b1 := double_of_uchar (msg_byte recv_msg 2) in
    let b2 := double_of_uchar (msg_byte recv_msg 3) in
    let r := calculate e b1 b2 in
    lift (elm327_destroy_recv_msgs recv_msg) ;;
    fprintf_out out (commandname e) r
  else ret tt.

Definition gather_body (out : option string) (elm_fd : Z) (o : list obdpid) (j : nat)
  : P unit :=
  match nth_error o j with
  | Some e => gather_entry out elm_fd e
  | None => ret tt
  end.

(** The block of [main] that gathers the data. *)
Definition gather_data (elm_fd : Z) (output_file : string) (o : list obdpid) : P unit :=
  lift (fprintf_stdout ("gathering data..." ++ LF)) ;;
  out <- fopen output_file "w" ;;
  for_ 25 0 (gather_body out elm_fd o) ;;
  lift (fprintf_stdout ("done" ++ LF)) ;;
  fclose out.

(** [int main(int argc, char* argv[])] *)
Definition main (argv : list string) (o0 : list obdpid) : P unit :=
  match parse_args argv with
  | None => lift (printf_all (usage (hd "" argv))) ;; lift (exit_ 1)
  | Some (device_name, output_file) =>
      lift (fprintf_stdout ("initializing connection" ++ LF)) ;;
      elm_fd <- lift (elm327_init elm_open device_name) ;;
      lift (elm327_set_timeout 3000) ;;
      lift (fprintf_stdout ("initializing vehicle info pids" ++ LF)) ;;
      let o := init_slots o0 in
      let o := setupcommands o in
      gather_data elm_fd output_file o ;;
      lift (elm327_shutdown elm_fd)
  end.

(** [exit(status)]: the C runtime closes the streams still open. *)
Definition crt_exit (status : Z) : P unit :=
  fun w =>
    (Ends status,
     mk_world (events w ++ repeat EvExitClose (open_streams (events w)))
              (exchanges w) (pending w)).

(** The process: [main], then [exit] with the status [main] returned, 0
    when it reaches its closing brace.  A process that is killed exits
    nothing. *)
Definition process (argv : list string) (o0 : list obdpid) : P unit :=
  fun w =>
    match main argv o0 w with
    | (Goes _, w') => crt_exit 0 w'
    | (Ends c, w') => crt_exit c w'
    | (Killed, w') => (Killed, w')
    end.

(** The loop as a recursion over the slots themselves. *)
Fixpoint gather_list (out : option string) (elm_fd : Z) (l : list obdpid) : P unit :=
  match l with
  | [] => ret tt
  | e :: l' => gather_entry out elm_fd e ;; gather_list out elm_fd l'
  end.

End Run.

End Process.

(** An operating system on which no file can be opened, and one on which
    every file can. *)
Definition fs_none (path : string) : bool := false.
Definition fs_any (path : string) : bool := true.

(** * Proofs *)

(** ** The loop and its trace *)

Section Sweep.

Variable adapter : nat -> OBD_MODE -> OBD_PARAM -> exchange.
Variable elm_fd : Z.

Lemma gather_entry_inactive (e : obdpid) (w : world) :
  active e = false -> gather_entry adapter elm_fd e w = (Next tt, w).
Proof.
  unfold active, gather_entry. intros ->. reflexivity.
Qed.

Lemma gather_entry_active (e : obdpid) (w : world) :
  active e = true ->
  gather_entry adapter elm_fd e w =
    (let x := adapter (exchanges w) OBD_MODE_1 (command e) in
     (if status_of x =? 0 then Next tt else Exit (status_of x),
      mk_world (events w ++ entry_trace x e) (S (exchanges w)) None)).
Proof.
  unfold active, gather_entry. intros ->.
  unfold QUERY_OR_ERR, query_elm, bind, elm327_send_msg, elm327_recv_msgs,
    elm327_flush, elm327_destroy_recv_msgs, fprintf_out, emit, exit_, ret,
    status_of, entry_trace, decode.
  cbn [exchanges events pending].
  destruct (adapter (exchanges w) OBD_MODE_1 (command e)) as [ok rp].
  destruct ok; cbn; [destruct rp as [m|]; cbn|];
    rewrite <- ?app_assoc; reflexivity.
Qed.

Lemma for_gather_list (l pre : list obdpid) (w : world) :
  for_ (List.length l) (List.length pre) (gather_body adapter elm_fd (pre ++ l)) w
  = gather_list adapter elm_fd l w.
Proof.
  revert pre w. induction l as [|e l IH]; intros pre w; [reflexivity|].
  cbn [List.length for_ gather_list]. unfold bind, gather_body at 1.
  rewrite nth_error_app2, Nat.sub_diag by reflexivity. cbn [nth_error].
  destruct (gather_entry adapter elm_fd e w) as [[[]|c] w1]; [|reflexivity].
  specialize (IH (pre ++ [e]) w1).
  rewrite <- app_assoc, length_app, Nat.add_comm in IH. exact IH.
Qed.

Lemma gather_list_filter (l : list obdpid) (w : world) :
  gather_list adapter elm_fd l w = gather_list adapter elm_fd (filter active l) w.
Proof.
  revert w. induction l as [|e l IH]; intros w; [reflexivity|].
  cbn [filter gather_list]. destruct (active e) eqn:He.
  - cbn [gather_list]. unfold bind.
    destruct (gather_entry adapter elm_fd e w) as [[[]|c] w1]; [apply IH|reflexivity].
  - unfold bind. rewrite gather_entry_inactive by exact He. apply IH.
Qed.

Lemma gather_list_trace (l : list obdpid) (w : world) :
  forallb active l = true ->
  fst (gather_list adapter elm_fd l w)
    = (if sweep_status adapter (exchanges w) l =? 0 then Next tt
       else Exit (sweep_status adapter (exchanges w) l))
  /\ events (snd (gather_list adapter elm_fd l w))
     = events w ++ sweep_trace adapter (exchanges w) l.
Proof.
  revert w. induction l as [|e l IH]; intros w Hact.
  - cbn. rewrite app_nil_r. split; reflexivity.
  - cbn [forallb] in Hact. apply andb_true_iff in Hact as [He Hl].
    cbn [gather_list sweep_status sweep_trace]. unfold bind.
    rewrite gather_entry_active by exact He. cbv zeta.
    destruct (status_of (adapter (exchanges w) OBD_MODE_1 (command e)) =? 0) eqn:Hs.
    + destruct (IH (mk_world
                  (events w ++ entry_trace (adapter (exchanges w) OBD_MODE_1 (command e)) e)
                  (S (exchanges w)) None) Hl) as [IH1 IH2].
      cbn [exchanges events] in IH1, IH2. rewrite IH1, IH2, app_assoc.
      split; reflexivity.
    + cbn [fst snd events]. rewrite Hs, app_nil_r. split; reflexivity.
Qed.

(** The block that gathers the data, over an array of 25 slots: the file is
    opened, the active slots are swept in order, and the closing events
    follow only when no exchange failed. *)
Lemma gather_data_trace (output_file : string) (o : list obdpid) (w : world) :
  List.length o = 25%nat ->
  let st := sweep_status adapter (exchanges w) (filter active o) in
  fst (gather_data adapter elm_fd output_file o w)
    = (if st =? 0 then Next tt else Exit st)
  /\ events (snd (gather_data adapter elm_fd output_file o w))
     = events w
       ++ [EvStdout ("gathering data..." ++ LF);
           EvFopen output_file "w"]
       ++ sweep_trace adapter (exchanges w) (filter active o)
       ++ (if st =? 0
           then [EvStdout ("done" ++ LF); EvFclose]
           else []).
Proof.
  intros Hlen st. unfold gather_data, bind, fprintf_stdout, fopen, fclose, emit.
  cbn [events exchanges pending].
  set (w1 := mk_world _ _ _).
  pose proof (for_gather_list o [] w1) as Hfor.
  rewrite Hlen in Hfor. cbn [List.length app] in Hfor. rewrite Hfor.
  rewrite gather_list_filter.
  assert (Hact : forallb active (filter active o) = true).
  { apply forallb_forall. intros e He. apply filter_In in He. tauto. }
  destruct (gather_list_trace (filter active o) w1 Hact) as [H1 H2].
  subst w1. cbn [events exchanges] in H1, H2. fold st in H1.
  destruct (gather_list adapter elm_fd (filter active o) _) as [[[]|c] w2];
    cbn [fst snd] in H1, H2; cbn [fst snd events].
  - destruct (st =? 0); [|discriminate H1].
    rewrite H2, <- !app_assoc. cbn [app]. split; reflexivity.
  - destruct (st =? 0); [discriminate H1|].
    rewrite H2, <- !app_assoc, app_nil_r. cbn [app]. split; [exact H1|reflexivity].
Qed.

End Sweep.

(** ** Facts about traces *)

Lemma queried_app (t1 t2 : list event) :
  queried (t1 ++ t2) = queried t1 ++ queried t2.
Proof. apply flat_map_app. Qed.

Lemma readings_app (t1 t2 : list event) :
  readings (t1 ++ t2) = readings t1 ++ readings t2.
Proof. apply flat_map_app. Qed.

Lemma count_app (p : event -> bool) (t1 t2 : list event) :
  count p (t1 ++ t2) = (count p t1 + count p t2)%nat.
Proof. unfold count. rewrite filter_app. apply length_app. Qed.

Lemma queried_entry_trace (x : exchange) (e : obdpid) :
  queried (entry_trace x e) = [command e].
Proof.
  unfold entry_trace. destruct (send_ok x); [destruct (reply x)|]; reflexivity.
Qed.

Lemma readings_entry_trace (x : exchange) (e : obdpid) :
  readings (entry_trace x e)
  = if status_of x =? 0 then [(commandname e, decode e (reply x))] else [].
Proof.
  unfold entry_trace, status_of.
  destruct (send_ok x); [destruct (reply x)|]; reflexivity.
Qed.

Lemma status_of_answered (x : exchange) :
  status_of x = 0 <-> answered x = true.
Proof.
  unfold status_of, answered.
  destruct (send_ok x); [destruct (reply x)|]; cbn; split;
    (reflexivity || discriminate).
Qed.

Lemma status_of_failed (x : exchange) :
  status_of x <> 0 <-> send_ok x = false \/ reply x = None.
Proof.
  unfold status_of.
  destruct (send_ok x); [destruct (reply x)|]; split; intros H;
    try (destruct H; discriminate); try contradiction; try discriminate; auto.
Qed.

Lemma count_entry_trace (p : event -> bool) (x : exchange) (e : obdpid) :
  (forall m pid, p (EvSend m pid) = false) -> p EvRecv = false ->
  p EvFlush = false -> (forall m, p (EvDestroy m) = false) ->
  (forall n r, p (EvFprintfOut n r) = false) ->
  count p (entry_trace x e) = 0%nat.
Proof.
  intros H1 H2 H3 H4 H5. unfold entry_trace, count.
  destruct (send_ok x); [destruct (reply x)|]; cbn;
    rewrite ?H1, ?H2, ?H3, ?H4, ?H5; reflexivity.
Qed.

Section SweepFacts.

Variable adapter : nat -> OBD_MODE -> OBD_PARAM -> exchange.

Lemma all_answered_cons (n : nat) (e : obdpid) (l : list obdpid) :
  all_answered adapter n (e :: l) = true <->
  status_of (adapter n OBD_MODE_1 (command e)) = 0
  /\ all_answered adapter (S n) l = true.
Proof.
  cbn [all_answered]. rewrite andb_true_iff, status_of_answered. reflexivity.
Qed.

(** The [i]-th entry swept gets request [n + i]. *)
Lemma all_answered_nth (n : nat) (l : list obdpid) :
  all_answered adapter n l = true <->
  forall i e, nth_error l i = Some e ->
    answered (adapter (n + i) OBD_MODE_1 (command e)) = true.
Proof.
  revert n. induction l as [|e l IH]; intros n.
  - split; [intros _ [|i] e' Hi; discriminate Hi|reflexivity].
  - rewrite all_answered_cons, status_of_answered, IH. split.
    + intros [H0 H] [|i] e' Hi.
      * cbn in Hi. injection Hi as <-. rewrite Nat.add_0_r. exact H0.
      * rewrite Nat.add_succ_r. apply (H i e' Hi).
    + intros H. split.
      * specialize (H 0%nat e eq_refl). rewrite Nat.add_0_r in H. exact H.
      * intros i e' Hi. specialize (H (S i) e' Hi).
        rewrite Nat.add_succ_r in H. exact H.
Qed.

Lemma sweep_count (p : event -> bool) (n : nat) (l : list obdpid) :
  (forall m pid, p (EvSend m pid) = false) -> p EvRecv = false ->
  p EvFlush = false -> (forall m, p (EvDestroy m) = false) ->
  (forall nm r, p (EvFprintfOut nm r) = false) ->
  count p (sweep_trace adapter n l) = 0%nat.
Proof.
  intros H1 H2 H3 H4 H5. revert n. induction l as [|e l IH]; intros n; [reflexivity|].
  cbn [sweep_trace]. rewrite count_app, count_entry_trace by assumption.
  destruct (_ =? 0); [apply IH|reflexivity].
Qed.

Lemma sweep_complete (n : nat) (l : list obdpid) :
  all_answered adapter n l = true ->
  sweep_status adapter n l = 0
  /\ readings (sweep_trace adapter n l) = expected_readings adapter n l
  /\ queried (sweep_trace adapter n l) = map command l.
Proof.
  revert n. induction l as [|e l IH]; intros n Hall; [repeat split|].
  apply all_answered_cons in Hall as [H0 Hall].
  destruct (IH (S n) Hall) as (IH1 & IH2 & IH3).
  cbn [sweep_status sweep_trace expected_readings map].
  rewrite readings_app, queried_app, readings_entry_trace, queried_entry_trace.
  rewrite H0. cbn [Z.eqb]. rewrite IH1, IH2, IH3. repeat split.
Qed.

Lemma sweep_status_zero (n : nat) (l : list obdpid) :
  sweep_status adapter n l = 0 -> all_answered adapter n l = true.
Proof.
  revert n. induction l as [|e l IH]; intros n Hst.
  - reflexivity.
  - cbn [sweep_status] in Hst. apply all_answered_cons.
    destruct (status_of (adapter n OBD_MODE_1 (command e)) =? 0) eqn:Hs.
    + apply Z.eqb_eq in Hs. split; [exact Hs|apply IH, Hst].
    + apply Z.eqb_neq in Hs. contradiction.
Qed.

Lemma sweep_abort (k : nat) (n : nat) (l : list obdpid) (ek : obdpid) :
  nth_error l k = Some ek ->
  all_answered adapter n (firstn k l) = true ->
  status_of (adapter (n + k) OBD_MODE_1 (command ek)) <> 0 ->
  sweep_status adapter n l = status_of (adapter (n + k) OBD_MODE_1 (command ek))
  /\ readings (sweep_trace adapter n l) = expected_readings adapter n (firstn k l)
  /\ queried (sweep_trace adapter n l) = map command (firstn (S k) l).
Proof.
  revert n l. induction k as [|k IH]; intros n [|e l] Hk Hpre Hfail;
    try discriminate Hk.
  - cbn in Hk. injection Hk as ->. rewrite Nat.add_0_r in *.
    apply Z.eqb_neq in Hfail.
    cbn [sweep_status sweep_trace firstn expected_readings map].
    rewrite readings_app, queried_app, readings_entry_trace, queried_entry_trace.
    rewrite Hfail. repeat split.
  - cbn [nth_error] in Hk. cbn [firstn] in Hpre.
    apply all_answered_cons in Hpre as [H0 Hpre].
    rewrite Nat.add_succ_r in *.
    destruct (IH (S n) l Hk Hpre Hfail) as (IH1 & IH2 & IH3).
    cbn [sweep_status sweep_trace firstn expected_readings map].
    rewrite readings_app, queried_app, readings_entry_trace, queried_entry_trace.
    rewrite H0. cbn [Z.eqb]. cbn [firstn] in IH3. rewrite IH1, IH2, IH3.
    repeat split.
Qed.

Lemma expected_readings_names (n : nat) (l : list obdpid) :
  map fst (expected_readings adapter n l) = map commandname l.
Proof.
  revert n. induction l as [|e l IH]; intros n; [reflexivity|].
  cbn. f_equal. apply IH.
Qed.

End SweepFacts.

(** ** Checking a property of the decoders over every pair of bytes *)

Lemma byte_values_In (a : Z) : 0 <= a <= 255 -> In a byte_values.
Proof.
  intros Ha. unfold byte_values. apply in_map_iff.
  exists (Z.to_nat a). split; [lia|]. apply in_seq. lia.
Qed.

Lemma for_all_bytes_spec (P : Z -> Z -> bool) :
  for_all_bytes P = true ->
  forall a b, 0 <= a <= 255 -> 0 <= b <= 255 -> P a b = true.
Proof.
  unfold for_all_bytes. intros H a b Ha Hb.
  rewrite forallb_forall in H. specialize (H a (byte_values_In a Ha)).
  rewrite forallb_forall in H. exact (H b (byte_values_In b Hb)).
Qed.

Lemma rpm_exact_all : for_all_bytes rpm_exact = true.
Proof. vm_compute. reflexivity. Qed.

(** ** The catalog *)

(** An array of 25 slots is the list of its 25 elements. *)
Ltac slots o H :=
  repeat (destruct o as [|? o]; [discriminate H|];
          cbn [List.length] in H; apply eq_add_S in H);
  destruct o; [clear H|discriminate H].

Lemma setupcommands_idem (o : list obdpid) :
  setupcommands (setupcommands o) = setupcommands o.
Proof.
  do 14 (destruct o as [|? o]; [reflexivity|]). reflexivity.
Qed.

(** C9. [setupcommands] is idempotent: run any number of times (at least
    once) on a slot table, it leaves the table a single run leaves, slot by
    slot and field by field. *)
Theorem setupcommands_idempotent (n : nat) (o : list obdpid) :
  Nat.iter (S n) setupcommands o = setupcommands o.
Proof.
  induction n as [|n IH]; [reflexivity|].
  change (Nat.iter (S (S n)) setupcommands o)
    with (setupcommands (Nat.iter (S n) setupcommands o)).
  rewrite IH. apply setupcommands_idem.
Qed.

(** C5, as the code has it.  Once [main] has built the catalog, exactly 7
    slots are active: the slots 3, 4, 5, 10, 11, 12 and 13, which hold fuel
    system status, calculated engine load, coolant temperature, fuel gauge
    pressure, intake manifold absolute pressure, engine speed and vehicle
    speed. *)
Theorem catalog_seven_active (o0 : list obdpid) :
  List.length o0 = 25%nat ->
  List.length (filter active (main_catalog o0)) = 7%nat
  /\ map commandname (filter active (main_catalog o0))
     = ["Fuel System Status"; "Calculated Engine Load";
        "Engine Coolant Temperature"; "Fuel Gauge Pressure";
        "Intake Manifold Absolute Pressure"; "Engine Speed"; "Vehicle Speed"]
  /\ map command (filter active (main_catalog o0))
     = [0x03; 0x04; 0x05; 0x0A; 0x0B; 0x0C; 0x0D]
  /\ map (fun e => active e) (main_catalog o0)
     = map (fun j => existsb (Nat.eqb j) [3; 4; 5; 10; 11; 12; 13]%nat) (seq 0 25).
Proof.
  intros H. slots o0 H. repeat split.
Qed.

Lemma catalog_seven_active_witness :
  List.length (filter active (main_catalog (repeat stack_junk 25))) = 7%nat.
Proof.
  exact (proj1 (catalog_seven_active (repeat stack_junk 25) eq_refl)).
Defined.

(** C5, as the specification words it, fails: the catalog built over 25
    slots does not have 8 active slots. *)
Lemma catalog_not_eight_active :
  List.length (filter active (main_catalog (repeat stack_junk 25))) <> 8%nat.
Proof. vm_compute. discriminate. Qed.

(** C7. [stdcalc] returns its first argument whatever the second is, 100
    for 100 in particular; every slot of the catalog but slot 12, Engine
    Speed, carries [stdcalc], so what such an entry computes from the two
    payload bytes is the first byte. *)
Theorem stdcalc_everywhere_but_engine_speed
    (o0 : list obdpid) (j : nat) (e : obdpid) (a b : float) (p1 p2 : Byte.byte) :
  List.length o0 = 25%nat ->
  nth_error (main_catalog o0) j = Some e ->
  j <> 12%nat ->
  stdcalc a b = a
  /\ stdcalc 100%float b = 100%float
  /\ calculate e = stdcalc
  /\ calculate e (double_of_uchar p1) (double_of_uchar p2) = double_of_uchar p1.
Proof.
  intros H He Hj. slots o0 H.
  do 25 (destruct j as [|j]; [try (exfalso; apply Hj; reflexivity);
                              injection He as <-; repeat split|]).
  destruct j; discriminate He.
Qed.

Lemma stdcalc_everywhere_but_engine_speed_witness :
  stdcalc 7%float 9%float = 7%float
  /\ stdcalc 100%float 9%float = 100%float
  /\ calculate vehicle_speed = stdcalc
  /\ calculate vehicle_speed (double_of_uchar Byte.x64) (double_of_uchar Byte.x2c)
     = double_of_uchar Byte.x64.
Proof.
  apply (stdcalc_everywhere_but_engine_speed (repeat stack_junk 25) 13).
  - reflexivity.
  - reflexivity.
  - discriminate.
Defined.

(** C8. On every pair of byte values [rpmcalc] computes exactly
    [((a * 256) + b) / 4]: the double it returns is finite and stands for
    that rational; on [0x1A] and [0x2C] it returns 1675. *)
Theorem rpmcalc_formula (a b : Z) :
  0 <= a <= 255 -> 0 <= b <= 255 ->
  (exists q, double_to_Q (rpmcalc (double_of_Z a) (double_of_Z b)) = Some q
             /\ (q == rpmFormula a b)%Q)
  /\ rpmcalc (double_of_Z 0x1A) (double_of_Z 0x2C) = 1675%float.
Proof.
  intros Ha Hb. split; [|reflexivity].
  pose proof (for_all_bytes_spec rpm_exact rpm_exact_all a b Ha Hb) as H.
  unfold rpm_exact in H.
  destruct (double_to_Q (rpmcalc (double_of_Z a) (double_of_Z b))) as [q|];
    [|discriminate H].
  exists q. split; [reflexivity|]. apply Qeq_bool_iff. exact H.
Qed.

Lemma rpmcalc_formula_witness :
  (exists q, double_to_Q (rpmcalc (double_of_Z 26) (double_of_Z 44)) = Some q
             /\ (q == rpmFormula 26 44)%Q)
  /\ rpmcalc (double_of_Z 0x1A) (double_of_Z 0x2C) = 1675%float.
Proof. apply (rpmcalc_formula 26 44); lia. Defined.

Lemma rpm_bounded_all : for_all_bytes rpm_bounded = true.
Proof. vm_compute. reflexivity. Qed.

(** C10. Slot 12 of the catalog, Engine Speed, declares the range
    [0, 16383.75] and decodes with [rpmcalc]; on every pair of byte values
    the value decoded lies in that range, by the comparison of doubles.
    The range takes no part in the decoding: whatever bounds the entry
    declares, the value is the same. *)
Theorem engine_speed_in_range (o0 : list obdpid) (e : obdpid) (a b : Z) :
  List.length o0 = 25%nat ->
  nth_error (main_catalog o0) 12 = Some e ->
  0 <= a <= 255 -> 0 <= b <= 255 ->
  commandname e = "Engine Speed"
  /\ min e = 0%float /\ max e = 16383.75%float
  /\ calculate e = rpmcalc
  /\ in_range e (calculate e (double_of_Z a) (double_of_Z b)) = true
  /\ (forall lo hi recv_msg,
        decode (set_max hi (set_min lo e)) recv_msg = decode e recv_msg).
Proof.
  intros H He Ha Hb. slots o0 H. injection He as <-.
  repeat split.
  exact (for_all_bytes_spec rpm_bounded rpm_bounded_all a b Ha Hb).
Qed.

Lemma engine_speed_in_range_witness :
  in_range engine_speed (calculate engine_speed (double_of_Z 255) (double_of_Z 255))
  = true.
Proof.
  refine (proj1 (proj2 (proj2 (proj2 (proj2
    (engine_speed_in_range (repeat stack_junk 25) engine_speed 255 255
       eq_refl eq_refl _ _)))))); lia.
Defined.

(** ** The sweep *)

Lemma payload_decode (x : exchange) (p1 p2 : Byte.byte) :
  payload x = Some (p1, p2) ->
  status_of x = 0
  /\ forall e, decode e (reply x)
               = calculate e (double_of_uchar p1) (double_of_uchar p2).
Proof.
  unfold payload, status_of, decode, msg_byte.
  destruct (send_ok x); [|discriminate].
  destruct (reply x) as [[|[|h1 [|h2 [|q1 [|q2 tl]]]] more]|]; try discriminate.
  intros H. injection H as -> ->. split; reflexivity.
Qed.

(** C4. For an active entry, whatever its width, when the exchange goes
    through the value reported is the entry's [calculate] applied to the
    bytes at offsets 2 and 3 of the first message received, in that order:
    the two bytes that follow the two bytes of header. *)
Theorem payload_bytes_at_offsets_2_3
    (adapter : nat -> OBD_MODE -> OBD_PARAM -> exchange) (elm_fd : Z)
    (e : obdpid) (w : world) (h1 h2 p1 p2 : Byte.byte) (tl : elm327_msg_t)
    (more : list elm327_msg_t) :
  (0 < bytes e)%N ->
  adapter (exchanges w) OBD_MODE_1 (command e)
    = mk_exchange true (Some ((h1 :: h2 :: p1 :: p2 :: tl) :: more)) ->
  msg_byte (Some ((h1 :: h2 :: p1 :: p2 :: tl) :: more)) 2 = p1
  /\ msg_byte (Some ((h1 :: h2 :: p1 :: p2 :: tl) :: more)) 3 = p2
  /\ fst (gather_entry adapter elm_fd e w) = Next tt
  /\ readings (events (snd (gather_entry adapter elm_fd e w)))
     = readings (events w)
       ++ [(commandname e, calculate e (double_of_uchar p1) (double_of_uchar p2))].
Proof.
  intros Hb Hx. apply N.ltb_lt in Hb.
  rewrite (gather_entry_active adapter elm_fd e w Hb). cbv zeta. rewrite Hx.
  cbn [status_of send_ok reply Z.eqb fst snd events].
  rewrite readings_app, readings_entry_trace.
  repeat split.
Qed.

Lemma payload_bytes_at_offsets_2_3_witness :
  readings (events (snd (gather_entry adapter_steady 3 engine_speed w_init)))
  = [("Engine Speed", rpmcalc (double_of_uchar Byte.x1a) (double_of_uchar Byte.x2c))].
Proof.
  exact (proj2 (proj2 (proj2
    (payload_bytes_at_offsets_2_3 adapter_steady 3 engine_speed w_init
       Byte.x41 Byte.x00 Byte.x1a Byte.x2c [] [] eq_refl eq_refl)))).
Defined.

(** C6. When the block that gathers the data runs to its end over an
    array of 25 slots, the requests sent are those of the slots with
    [bytes > 0], one each, in the order of the slots, and the readings
    written are theirs, one each, in the same order: a slot with
    [bytes = 0] adds neither a request nor a reading. *)
Theorem sweep_covers_active_slots
    (adapter : nat -> OBD_MODE -> OBD_PARAM -> exchange) (elm_fd : Z)
    (output_file : string) (o : list obdpid) (w : world) :
  List.length o = 25%nat ->
  fst (gather_data adapter elm_fd output_file o w) = Next tt ->
  let t := events (snd (gather_data adapter elm_fd output_file o w)) in
  queried t = queried (events w) ++ map command (filter active o)
  /\ readings t
     = readings (events w) ++ expected_readings adapter (exchanges w) (filter active o)
  /\ map fst (readings t)
     = map fst (readings (events w)) ++ map commandname (filter active o)
  /\ count is_send t
     = (count is_send (events w) + List.length (filter active o))%nat.
Proof.
  intros Hlen Hrun t.
  destruct (gather_data_trace adapter elm_fd output_file o w Hlen) as [H1 H2].
  cbv zeta in H1, H2. rewrite Hrun in H1.
  destruct (sweep_status adapter (exchanges w) (filter active o) =? 0) eqn:Hst;
    [|discriminate H1].
  apply Z.eqb_eq, sweep_status_zero, sweep_complete in Hst as (_ & Hr & Hq).
  assert (Hqt : queried t = queried (events w) ++ map command (filter active o)).
  { subst t. rewrite H2, !queried_app, Hq. cbn. rewrite app_nil_r. reflexivity. }
  assert (Hrt : readings t = readings (events w)
                  ++ expected_readings adapter (exchanges w) (filter active o)).
  { subst t. rewrite H2, !readings_app, Hr. cbn. rewrite app_nil_r. reflexivity. }
  repeat split.
  - exact Hqt.
  - exact Hrt.
  - rewrite Hrt, map_app, expected_readings_names. reflexivity.
  - assert (Hc : forall u, count is_send u = List.length (queried u)).
    { unfold count, queried. induction u as [|ev u IH]; [reflexivity|].
      destruct ev; cbn; rewrite ?IH; reflexivity. }
    rewrite !Hc, Hqt, length_app, length_map. reflexivity.
Qed.

Lemma sweep_covers_active_slots_witness :
  queried (events (snd (gather_data adapter_steady 3 "carstats.csv"
                          (main_catalog (repeat stack_junk 25)) w_init)))
  = [0x03; 0x04; 0x05; 0x0A; 0x0B; 0x0C; 0x0D].
Proof.
  exact (proj1
    (sweep_covers_active_slots adapter_steady 3 "carstats.csv"
       (main_catalog (repeat stack_junk 25)) w_init eq_refl eq_refl)).
Defined.

(** C1. Over an array of 25 slots, when the exchanges of the first [k - 1]
    active slots go through and that of the [k]-th fails, the block ends
    [main] with status 1 when it is the send that failed and 2 when it is
    the receive; the readings written are those of the first [k - 1] active
    slots, in order, and the requests sent are those of the first [k]: no
    later slot is asked, none is asked twice. *)
Theorem abort_reports_prefix
    (adapter : nat -> OBD_MODE -> OBD_PARAM -> exchange) (elm_fd : Z)
    (output_file : string) (o : list obdpid) (w : world)
    (k : nat) (ek : obdpid) :
  List.length o = 25%nat ->
  (1 <= k)%nat ->
  nth_error (filter active o) (k - 1)%nat = Some ek ->
  all_answered adapter (exchanges w) (firstn (k - 1)%nat (filter active o)) = true ->
  let x := adapter (exchanges w + (k - 1))%nat OBD_MODE_1 (command ek) in
  send_ok x = false \/ reply x = None ->
  let run := gather_data adapter elm_fd output_file o w in
  (send_ok x = false -> fst run = Exit 1)
  /\ (send_ok x = true -> fst run = Exit 2)
  /\ readings (events (snd run))
     = readings (events w)
       ++ expected_readings adapter (exchanges w) (firstn (k - 1)%nat (filter active o))
  /\ List.length (readings (events (snd run)))
     = (List.length (readings (events w)) + (k - 1))%nat
  /\ map fst (readings (events (snd run)))
     = map fst (readings (events w))
       ++ map commandname (firstn (k - 1)%nat (filter active o))
  /\ queried (events (snd run))
     = queried (events w) ++ map command (firstn k (filter active o)).
Proof.
  intros Hlen Hk Hnth Hpre x Hfail run.
  destruct (gather_data_trace adapter elm_fd output_file o w Hlen) as [H1 H2].
  cbv zeta in H1, H2. fold run in H1, H2.
  assert (Hst0 : status_of x <> 0) by (apply status_of_failed; exact Hfail).
  destruct (sweep_abort adapter (k - 1)%nat (exchanges w) (filter active o) ek
              Hnth Hpre Hst0) as (Hst & Hr & Hq).
  fold x in Hst. rewrite Hst in H1, H2.
  apply Z.eqb_neq in Hst0. rewrite Hst0 in H1, H2. apply Z.eqb_neq in Hst0.
  replace (S (k - 1)%nat) with k in Hq by lia.
  assert (Hrt : readings (events (snd run)) = readings (events w)
            ++ expected_readings adapter (exchanges w)
                 (firstn (k - 1)%nat (filter active o))).
  { rewrite H2, !readings_app, Hr. cbn. rewrite app_nil_r. reflexivity. }
  split; [|split; [|split; [exact Hrt|split; [|split]]]].
  - intros Hs. rewrite H1. unfold status_of. rewrite Hs. reflexivity.
  - intros Hs. rewrite H1. unfold status_of in *. rewrite Hs in *.
    destruct (reply x); [contradiction|reflexivity].
  - rewrite Hrt, length_app. f_equal.
    rewrite <- (length_map fst), expected_readings_names, length_map.
    apply firstn_length_le. apply Nat.lt_le_incl, nth_error_Some. congruence.
  - rewrite Hrt, map_app, expected_readings_names. reflexivity.
  - rewrite H2, !queried_app, Hq. cbn. rewrite app_nil_r. reflexivity.
Qed.

Lemma abort_reports_prefix_witness :
  fst (gather_data adapter_silent_second 3 "carstats.csv" scenario_catalog w_init)
    = Exit 2
  /\ readings (events (snd (gather_data adapter_silent_second 3 "carstats.csv"
                              scenario_catalog w_init)))
     = [("Engine Coolant Temperature", 95%float)]
  /\ queried (events (snd (gather_data adapter_silent_second 3 "carstats.csv"
                             scenario_catalog w_init)))
     = [0x05; 0x0C].
Proof.
  destruct (abort_reports_prefix adapter_silent_second 3 "carstats.csv"
              scenario_catalog w_init 2 engine_speed
              eq_refl (le_S 1 1 (le_n 1)) eq_refl eq_refl (or_intror eq_refl))
    as (_ & H1 & H2 & _ & _ & H3).
  split; [exact (H1 eq_refl)|]. split; [exact H2|exact H3].
Defined.

(** C2. Over an array of 25 slots whose active slots are, in order, Engine
    Coolant Temperature with [stdcalc], Engine Speed with [rpmcalc] and
    Vehicle Speed with [stdcalc], when the three exchanges bring the payload
    bytes (95, 0), (0x1A, 0x2C) and (60, 0), the block runs to its end and
    the report holds the three lines below, one per reading, each the name,
    a comma, the value with six decimals and a line feed. *)
Theorem three_entry_report
    (adapter : nat -> OBD_MODE -> OBD_PARAM -> exchange) (elm_fd : Z)
    (output_file : string) (o : list obdpid) (w : world) (e1 e2 e3 : obdpid) :
  List.length o = 25%nat ->
  filter active o = [e1; e2; e3] ->
  commandname e1 = "Engine Coolant Temperature" -> calculate e1 = stdcalc ->
  commandname e2 = "Engine Speed" -> calculate e2 = rpmcalc ->
  commandname e3 = "Vehicle Speed" -> calculate e3 = stdcalc ->
  payload (adapter (exchanges w) OBD_MODE_1 (command e1))
    = Some (Byte.x5f, Byte.x00) ->
  payload (adapter (exchanges w + 1)%nat OBD_MODE_1 (command e2))
    = Some (Byte.x1a, Byte.x2c) ->
  payload (adapter (exchanges w + 2)%nat OBD_MODE_1 (command e3))
    = Some (Byte.x3c, Byte.x00) ->
  readings (events w) = [] ->
  let run := gather_data adapter elm_fd output_file o w in
  fst run = Next tt
  /\ readings (events (snd run))
     = [("Engine Coolant Temperature", 95%float); ("Engine Speed", 1675%float);
        ("Vehicle Speed", 60%float)]
  /\ report (events (snd run))
     = ("Engine Coolant Temperature, 95.000000" ++ LF
        ++ "Engine Speed, 1675.000000" ++ LF
        ++ "Vehicle Speed, 60.000000" ++ LF)%string.
Proof.
  intros Hlen Hact Hn1 Hc1 Hn2 Hc2 Hn3 Hc3 Hp1 Hp2 Hp3 Hw run.
  apply payload_decode in Hp1 as [Hs1 Hd1].
  apply payload_decode in Hp2 as [Hs2 Hd2].
  apply payload_decode in Hp3 as [Hs3 Hd3].
  rewrite Nat.add_1_r in Hs2, Hd2.
  replace (exchanges w + 2)%nat with (S (S (exchanges w))) in Hs3, Hd3 by lia.
  destruct (gather_data_trace adapter elm_fd output_file o w Hlen) as [H1 H2].
  cbv zeta in H1, H2. fold run in H1, H2. rewrite Hact in H1, H2.
  assert (Hall : all_answered adapter (exchanges w) [e1; e2; e3] = true).
  { apply status_of_answered in Hs1, Hs2, Hs3.
    cbn [all_answered]. rewrite Hs1, Hs2, Hs3. reflexivity. }
  apply sweep_complete in Hall as (Hst & Hr & _).
  rewrite Hst in H1, H2. cbn [Z.eqb] in H1, H2.
  assert (Hrt : readings (events (snd run))
                = [("Engine Coolant Temperature", 95%float);
                   ("Engine Speed", 1675%float); ("Vehicle Speed", 60%float)]).
  { rewrite H2, !readings_app, Hw, Hr. cbn [expected_readings].
    rewrite Hd1, Hd2, Hd3, Hn1, Hn2, Hn3, Hc1, Hc2, Hc3. reflexivity. }
  split; [exact H1|]. split; [exact Hrt|].
  unfold report. rewrite Hrt. reflexivity.
Qed.

Lemma three_entry_report_witness :
  report (events (snd (gather_data adapter_scenario 3 "carstats.csv"
                         scenario_catalog w_init)))
  = ("Engine Coolant Temperature, 95.000000" ++ LF
     ++ "Engine Speed, 1675.000000" ++ LF
     ++ "Vehicle Speed, 60.000000" ++ LF)%string.
Proof.
  exact (proj2 (proj2
    (three_entry_report adapter_scenario 3 "carstats.csv" scenario_catalog w_init
       coolant engine_speed vehicle_speed
       eq_refl eq_refl eq_refl eq_refl eq_refl eq_refl eq_refl eq_refl
       eq_refl eq_refl eq_refl eq_refl))).
Defined.

(** ** The whole run *)

Lemma main_catalog_length (o0 : list obdpid) :
  List.length o0 = 25%nat -> List.length (main_catalog o0) = 25%nat.
Proof. intros H. slots o0 H. reflexivity. Qed.

(** The events of [main] once the command line is accepted: the opening
    calls, the block that gathers the data and, only when no exchange
    failed, [fclose] and [elm327_shutdown]. *)
Lemma main_trace
    (adapter : nat -> OBD_MODE -> OBD_PARAM -> exchange) (elm_open : string -> Z)
    (argv : list string) (device_name output_file : string)
    (o0 : list obdpid) (w : world) :
  parse_args argv = Some (device_name, output_file) ->
  List.length o0 = 25%nat ->
  let st := sweep_status adapter (exchanges w) (filter active (main_catalog o0)) in
  fst (main adapter elm_open argv o0 w) = (if st =? 0 then Next tt else Exit st)
  /\ events (snd (main adapter elm_open argv o0 w))
     = events w
       ++ [EvStdout ("initializing connection" ++ LF); EvInit device_name;
           EvSetTimeout 3000; EvStdout ("initializing vehicle info pids" ++ LF);
           EvStdout ("gathering data..." ++ LF); EvFopen output_file "w"]
       ++ sweep_trace adapter (exchanges w) (filter active (main_catalog o0))
       ++ (if st =? 0
           then [EvStdout ("done" ++ LF); EvFclose; EvShutdown]
           else []).
Proof.
  intros Hargs Hlen st. unfold main. rewrite Hargs.
  cbv [bind fprintf_stdout elm327_init elm327_set_timeout elm327_shutdown emit ret].
  cbn [events exchanges pending].
  set (w1 := mk_world ((((events w ++ _) ++ _) ++ _) ++ _) _ _).
  destruct (gather_data_trace adapter (elm_open device_name) output_file
              (main_catalog o0) w1 (main_catalog_length o0 Hlen)) as [H1 H2].
  cbv zeta in H1, H2. subst w1. cbn [events exchanges] in H1, H2.
  fold st in H1, H2. unfold main_catalog in H1, H2.
  destruct (gather_data _ _ _ _ _) as [[[]|c] w2]; cbn [fst snd events] in *.
  - destruct (st =? 0); [|discriminate H1]. rewrite H2, <- !app_assoc.
    split; reflexivity.
  - destruct (st =? 0); [discriminate H1|]. rewrite H2, <- !app_assoc.
    split; [exact H1|reflexivity].
Qed.

(** A run that is not interrupted opens the report once and closes it once. *)
Lemma main_complete_closes_once
    (adapter : nat -> OBD_MODE -> OBD_PARAM -> exchange) (elm_open : string -> Z)
    (argv : list string) (device_name output_file : string) (o0 : list obdpid) :
  parse_args argv = Some (device_name, output_file) ->
  List.length o0 = 25%nat ->
  fst (main adapter elm_open argv o0 w_init) = Next tt ->
  let t := events (snd (main adapter elm_open argv o0 w_init)) in
  count is_fopen t = 1%nat /\ count is_fclose t = 1%nat /\ count is_shutdown t = 1%nat.
Proof.
  intros Hargs Hlen Hrun t.
  destruct (main_trace adapter elm_open argv device_name output_file o0 w_init
              Hargs Hlen) as [H1 H2].
  cbv zeta in H1, H2. rewrite Hrun in H1. subst t.
  destruct (_ =? 0); [|discriminate H1].
  rewrite H2. rewrite !count_app, !sweep_count by (intros; reflexivity).
  repeat split.
Qed.

(** * Further properties of the code *)

(** ** The command line *)

Lemma parse_loop_app_le (n : nat) :
  forall (l1 l2 : list string) (d f d' f' : string),
    (List.length l1 <= n)%nat ->
    parse_loop l1 d f = Some (d', f') ->
    parse_loop (l1 ++ l2) d f = parse_loop l2 d' f'.
Proof.
  induction n as [|n IH]; intros l1 l2 d f d' f' Hn H.
  - destruct l1; [|cbn in Hn; lia]. cbn in H. injection H as -> ->. reflexivity.
  - destruct l1 as [|a rest]; [cbn in H; injection H as -> ->; reflexivity|].
    cbn [parse_loop app] in *.
    destruct (String.eqb a "-d").
    + destruct rest as [|v rest']; [discriminate H|].
      cbn [app]. apply IH; [cbn in Hn; lia|exact H].
    + destruct (String.eqb a "-f").
      * destruct rest as [|v rest']; [discriminate H|].
        cbn [app]. apply IH; [cbn in Hn; lia|exact H].
      * apply IH; [cbn in Hn; lia|exact H].
Qed.

(** X1. The scan of the arguments composes: when a first run of words is
    accepted, the words that follow are scanned from the options it left. *)
Theorem parse_loop_app (l1 l2 : list string) (d f d' f' : string) :
  parse_loop l1 d f = Some (d', f') ->
  parse_loop (l1 ++ l2) d f = parse_loop l2 d' f'.
Proof. apply (parse_loop_app_le (List.length l1)). apply le_n. Qed.

Lemma parse_loop_app_witness :
  parse_loop (["-d"; "/dev/ttyUSB0"] ++ ["-f"; "out.csv"])
             DEFAULT_DEVICE_NAME DEFAULT_OUTPUT_FILE
  = parse_loop ["-f"; "out.csv"] "/dev/ttyUSB0" DEFAULT_OUTPUT_FILE.
Proof. apply parse_loop_app. reflexivity. Defined.

(** X2. The option given last wins: after any accepted words, [-d v]
    makes [v] the device and [-f v] makes [v] the output file, whatever
    was given before, and leaves the other option as it was. *)
Theorem parse_args_last_option_wins
    (prog v : string) (l : list string) (d' f' : string) :
  parse_loop l DEFAULT_DEVICE_NAME DEFAULT_OUTPUT_FILE = Some (d', f') ->
  parse_args (prog :: l ++ ["-d"; v]) = Some (v, f')
  /\ parse_args (prog :: l ++ ["-f"; v]) = Some (d', v).
Proof.
  intros H.
  assert (Hd : parse_loop (l ++ ["-d"; v]) DEFAULT_DEVICE_NAME DEFAULT_OUTPUT_FILE
               = Some (v, f')).
  { rewrite (parse_loop_app_le (List.length l) l _ _ _ _ _ (le_n _) H). reflexivity. }
  assert (Hf : parse_loop (l ++ ["-f"; v]) DEFAULT_DEVICE_NAME DEFAULT_OUTPUT_FILE
               = Some (d', v)).
  { rewrite (parse_loop_app_le (List.length l) l _ _ _ _ _ (le_n _) H). reflexivity. }
  unfold parse_args. split.
  - destruct (l ++ ["-d"; v]) eqn:E; [destruct l; discriminate E|exact Hd].
  - destruct (l ++ ["-f"; v]) eqn:E; [destruct l; discriminate E|exact Hf].
Qed.

Lemma parse_args_last_option_wins_witness :
  parse_args ("elm327diag" :: ["-d"; "/dev/ttyS0"; "-f"; "a.csv"] ++ ["-d"; "/dev/ttyUSB0"])
  = Some ("/dev/ttyUSB0", "a.csv").
Proof.
  exact (proj1 (parse_args_last_option_wins "elm327diag" "/dev/ttyUSB0"
                  ["-d"; "/dev/ttyS0"; "-f"; "a.csv"] "/dev/ttyS0" "a.csv" eq_refl)).
Defined.

(** X3. An option that comes last without its value is refused: after any
    accepted words, a closing [-d] or [-f] leads to the usage text. *)
Theorem parse_args_trailing_flag_refused
    (prog : string) (l : list string) (d' f' : string) :
  parse_loop l DEFAULT_DEVICE_NAME DEFAULT_OUTPUT_FILE = Some (d', f') ->
  parse_args (prog :: l ++ ["-d"]) = None
  /\ parse_args (prog :: l ++ ["-f"]) = None.
Proof.
  intros H.
  assert (Hd : parse_loop (l ++ ["-d"]) DEFAULT_DEVICE_NAME DEFAULT_OUTPUT_FILE = None).
  { rewrite (parse_loop_app_le (List.length l) l _ _ _ _ _ (le_n _) H). reflexivity. }
  assert (Hf : parse_loop (l ++ ["-f"]) DEFAULT_DEVICE_NAME DEFAULT_OUTPUT_FILE = None).
  { rewrite (parse_loop_app_le (List.length l) l _ _ _ _ _ (le_n _) H). reflexivity. }
  unfold parse_args. split.
  - destruct (l ++ ["-d"]) eqn:E; [reflexivity|exact Hd].
  - destruct (l ++ ["-f"]) eqn:E; [reflexivity|exact Hf].
Qed.

Lemma parse_args_trailing_flag_refused_witness :
  parse_args ("elm327diag" :: ["-f"; "a.csv"] ++ ["-d"]) = None.
Proof.
  exact (proj1 (parse_args_trailing_flag_refused "elm327diag"
                  ["-f"; "a.csv"] DEFAULT_DEVICE_NAME "a.csv" eq_refl)).
Defined.

Lemma parse_loop_keeps_le (n : nat) :
  forall (l : list string) (d f d' f' : string),
    (List.length l <= n)%nat ->
    parse_loop l d f = Some (d', f') ->
    (~ In "-d" l -> d' = d) /\ (~ In "-f" l -> f' = f).
Proof.
  induction n as [|n IH]; intros l d f d' f' Hn H.
  - destruct l; [|cbn in Hn; lia]. cbn in H. injection H as -> ->. split; reflexivity.
  - destruct l as [|a rest]; [cbn in H; injection H as -> ->; split; reflexivity|].
    cbn [parse_loop] in H.
    destruct (String.eqb a "-d") eqn:Ed.
    + apply String.eqb_eq in Ed. subst a.
      destruct rest as [|v rest']; [discriminate H|].
      destruct (IH rest' v f d' f' ltac:(cbn in Hn; lia) H) as [_ Hf].
      split; [intros Hd; exfalso; apply Hd; left; reflexivity|].
      intros Hnf. apply Hf. intros Hin. apply Hnf. right. right. exact Hin.
    + destruct (String.eqb a "-f") eqn:Ef.
      * apply String.eqb_eq in Ef. subst a.
        destruct rest as [|v rest']; [discriminate H|].
        destruct (IH rest' d v d' f' ltac:(cbn in Hn; lia) H) as [Hd _].
        split; [|intros Hnf; exfalso; apply Hnf; left; reflexivity].
        intros Hnd. apply Hd. intros Hin. apply Hnd. right. right. exact Hin.
      * destruct (IH rest d f d' f' ltac:(cbn in Hn; lia) H) as [Hd Hf].
        split; intros Hno; [apply Hd|apply Hf]; intros Hin; apply Hno; right; exact Hin.
Qed.

(** X4. The defaults stand unless the option is given: on an accepted
    command line without the word [-d] the device is [/dev/pts/8], and
    without the word [-f] the output file is [carstats.csv]. *)
Theorem parse_args_keeps_defaults (argv : list string) (d f : string) :
  parse_args argv = Some (d, f) ->
  (~ In "-d" (tl argv) -> d = DEFAULT_DEVICE_NAME)
  /\ (~ In "-f" (tl argv) -> f = DEFAULT_OUTPUT_FILE).
Proof.
  destruct argv as [|prog [|a rest]]; try discriminate.
  cbn [parse_args tl]. intros H.
  exact (parse_loop_keeps_le _ _ _ _ _ _ (le_n _) H).
Qed.

Lemma parse_args_keeps_defaults_witness :
  (~ In "-d" (tl ["elm327diag"; "-f"; "a.csv"]) -> "/dev/pts/8" = DEFAULT_DEVICE_NAME)
  /\ (~ In "-f" (tl ["elm327diag"; "-f"; "a.csv"]) -> "a.csv" = DEFAULT_OUTPUT_FILE).
Proof.
  exact (parse_args_keeps_defaults ["elm327diag"; "-f"; "a.csv"] "/dev/pts/8" "a.csv"
           eq_refl).
Defined.

(** X5. Words that are neither [-d] nor [-f] are skipped: a command line of
    at least one such word, the dummy [-o] for one, is accepted with both
    defaults. *)
Theorem parse_args_skips_other_words (prog : string) (args : list string) :
  args <> [] ->
  (forall a, In a args -> a <> "-d" /\ a <> "-f") ->
  parse_args (prog :: args) = Some (DEFAULT_DEVICE_NAME, DEFAULT_OUTPUT_FILE).
Proof.
  intros Hne Hall.
  assert (H : forall d f, parse_loop args d f = Some (d, f)).
  { clear Hne. induction args as [|a rest IH]; intros d f; [reflexivity|].
    cbn [parse_loop].
    destruct (Hall a (or_introl eq_refl)) as [Hd Hf].
    apply String.eqb_neq in Hd, Hf. rewrite Hd, Hf.
    apply IH. intros b Hb. apply Hall. right. exact Hb. }
  destruct args as [|a rest]; [contradiction|]. cbn [parse_args]. apply H.
Qed.

Lemma parse_args_skips_other_words_witness :
  parse_args ("elm327diag" :: ["-o"]) = Some (DEFAULT_DEVICE_NAME, DEFAULT_OUTPUT_FILE).
Proof.
  apply parse_args_skips_other_words.
  - discriminate.
  - intros a [<-|[]]. split; discriminate.
Defined.

Lemma printf_all_trace (lines : list string) (w : world) :
  printf_all lines w
  = (Next tt, mk_world (events w ++ map EvStdout lines) (exchanges w) (pending w)).
Proof.
  revert w. induction lines as [|s rest IH]; intros w.
  - cbn. rewrite app_nil_r. destruct w; reflexivity.
  - cbn [printf_all map]. unfold bind, fprintf_stdout, emit. rewrite IH.
    cbn [events exchanges pending]. rewrite <- app_assoc. reflexivity.
Qed.

(** X6. A command line that is refused ends the process with status 1 after
    the ten lines of the usage text and nothing else: the device is not
    opened, no report file is opened, no request is sent. *)
Theorem refused_command_line_only_prints_usage
    (adapter : nat -> OBD_MODE -> OBD_PARAM -> exchange) (elm_open : string -> Z)
    (argv : list string) (o0 : list obdpid) (w : world) :
  parse_args argv = None ->
  let run := main adapter elm_open argv o0 w in
  fst run = Exit 1
  /\ events (snd run) = events w ++ map EvStdout (usage (hd "" argv))
  /\ List.length (usage (hd "" argv)) = 10%nat
  /\ count is_init (events (snd run)) = count is_init (events w)
  /\ count is_fopen (events (snd run)) = count is_fopen (events w)
  /\ count is_send (events (snd run)) = count is_send (events w).
Proof.
  intros Hargs run. subst run. unfold main. rewrite Hargs.
  unfold bind. rewrite printf_all_trace. cbn [fst snd events exit_].
  assert (Hc : forall p, (forall s, p (EvStdout s) = false) ->
                 count p (events w ++ map EvStdout (usage (hd "" argv)))
                 = count p (events w)).
  { intros p Hp. rewrite count_app. unfold count.
    replace (filter p (map EvStdout (usage (hd "" argv)))) with (@nil event).
    - cbn. apply Nat.add_0_r.
    - induction (usage (hd "" argv)) as [|s l IH]; [reflexivity|].
      cbn. rewrite Hp. exact IH. }
  repeat split; apply Hc; reflexivity.
Qed.

Lemma refused_command_line_only_prints_usage_witness :
  fst (main adapter_steady (fun _ => 3) ["elm327diag"] (repeat stack_junk 25) w_init)
  = Exit 1.
Proof.
  exact (proj1 (refused_command_line_only_prints_usage adapter_steady (fun _ => 3)
                  ["elm327diag"] (repeat stack_junk 25) w_init eq_refl)).
Defined.

(** ** One query *)

(** X7. [query_elm] never ends the process and tells its three outcomes
    apart.  When the send fails it returns 1 without receiving and leaves
    [*msgs] as it was; when nothing is received it returns 2 with [*msgs]
    [NULL]; otherwise it returns 0 with the messages received.  The
    adapter is flushed in the last case only. *)
Theorem query_elm_outcomes
    (adapter : nat -> OBD_MODE -> OBD_PARAM -> exchange)
    (fd : Z) (mode : OBD_MODE) (pid : OBD_PARAM)
    (msgs : option (list elm327_msg_t)) (w : world) :
  let x := adapter (exchanges w) mode pid in
  let run := query_elm adapter fd mode pid msgs w in
  (send_ok x = false ->
     fst run = Next (1, msgs)
     /\ events (snd run) = events w ++ [EvSend mode pid])
  /\ (send_ok x = true -> reply x = None ->
     fst run = Next (2, None)
     /\ events (snd run) = events w ++ [EvSend mode pid; EvRecv])
  /\ (forall m, send_ok x = true -> reply x = Some m ->
     fst run = Next (0, Some m)
     /\ events (snd run) = events w ++ [EvSend mode pid; EvRecv; EvFlush]).
Proof.
  intros x run. subst x run.
  unfold query_elm, bind, elm327_send_msg, elm327_recv_msgs, elm327_flush, ret.
  cbn [events exchanges pending].
  destruct (adapter (exchanges w) mode pid) as [ok rp]. cbn [send_ok reply].
  split; [|split].
  - intros ->. cbn. split; reflexivity.
  - intros -> ->. cbn. rewrite <- app_assoc. split; reflexivity.
  - intros m -> ->. cbn. rewrite <- !app_assoc. split; reflexivity.
Qed.

Lemma query_elm_outcomes_witness :
  fst (query_elm adapter_unplugged 3 OBD_MODE_1 0x0C (Some [[Byte.x41]]) w_init)
  = Next (1, Some [[Byte.x41]]).
Proof.
  exact (proj1 (proj1 (query_elm_outcomes adapter_unplugged 3 OBD_MODE_1 0x0C
                         (Some [[Byte.x41]]) w_init) eq_refl)).
Defined.

(** ** The slot table *)

Lemma length_upd (j : nat) (f : obdpid -> obdpid) (o : list obdpid) :
  List.length (upd j f o) = List.length o.
Proof.
  revert j. induction o as [|e o IH]; intros [|j]; cbn; try reflexivity.
  f_equal. apply IH.
Qed.

Lemma nth_error_upd_other (i j : nat) (f : obdpid -> obdpid) (o : list obdpid) :
  i <> j -> nth_error (upd i f o) j = nth_error o j.
Proof.
  revert i j. induction o as [|e o IH]; intros [|i] [|j] Hij; cbn;
    try reflexivity; try contradiction.
  apply IH. intros ->. apply Hij. reflexivity.
Qed.

Lemma nth_error_upd_same (i : nat) (f : obdpid -> obdpid) (o : list obdpid) :
  nth_error (upd i f o) i = option_map f (nth_error o i).
Proof.
  revert i. induction o as [|e o IH]; intros [|i]; cbn; try reflexivity.
  apply IH.
Qed.

Lemma setupcommands_frame_aux (o : list obdpid) (j : nat) :
  ~ In j [3; 4; 5; 10; 11; 12; 13]%nat ->
  nth_error (setupcommands o) j = nth_error o j
  /\ List.length (setupcommands o) = List.length o.
Proof.
  intros Hj. unfold setupcommands. split.
  - rewrite !nth_error_upd_other; [reflexivity|..];
      intros <-; apply Hj; cbn; tauto.
  - rewrite !length_upd. reflexivity.
Qed.

(** X8. [setupcommands] writes to the slots 3, 4, 5, 10, 11, 12 and 13 and
    to no other: on a table of any size every other slot is left as it
    was, and the table keeps its size. *)
Theorem setupcommands_frame (o : list obdpid) (j : nat) :
  ~ In j [3; 4; 5; 10; 11; 12; 13]%nat ->
  nth_error (setupcommands o) j = nth_error o j
  /\ List.length (setupcommands o) = List.length o.
Proof. apply setupcommands_frame_aux. Qed.

Lemma setupcommands_frame_witness :
  nth_error (setupcommands (repeat stack_junk 25)) 6 = nth_error (repeat stack_junk 25) 6.
Proof.
  refine (proj1 (setupcommands_frame (repeat stack_junk 25) 6 _)).
  cbn. intros [H|[H|[H|[H|[H|[H|[H|[]]]]]]]]; discriminate H.
Defined.

(** X9. What [setupcommands] never assigns.  The range and the unit of
    slot 3, Fuel System Status, are left as they were, and so is the decode
    function of every slot but slot 12: the identity rule of the other
    entries comes from the first loop of [main], not from [setupcommands]. *)
Theorem setupcommands_unassigned_fields (o : list obdpid) (j : nat) (e : obdpid) :
  nth_error o j = Some e ->
  exists e', nth_error (setupcommands o) j = Some e'
    /\ (j <> 12%nat -> calculate e' = calculate e)
    /\ (j = 3%nat -> min e' = min e /\ max e' = max e /\ units e' = units e).
Proof.
  intros He.
  destruct (in_dec Nat.eq_dec j [3; 4; 5; 10; 11; 12; 13]%nat) as [Hin|Hout].
  - unfold setupcommands.
    cbn in Hin.
    destruct Hin as [<-|[<-|[<-|[<-|[<-|[<-|[<-|[]]]]]]]];
      repeat (first [ rewrite nth_error_upd_same
                    | rewrite nth_error_upd_other by discriminate ]);
      rewrite He; cbn [option_map]; eexists; (split; [reflexivity|]);
      (split; [intros H; try reflexivity; exfalso; apply H; reflexivity
              |intros H; try discriminate H; repeat split]).
  - destruct (setupcommands_frame_aux o j Hout) as [H _].
    exists e. rewrite H. split; [exact He|]. split; [reflexivity|].
    intros ->. exfalso. apply Hout. cbn. tauto.
Qed.

Lemma setupcommands_unassigned_fields_witness :
  exists e', nth_error (setupcommands (repeat stack_junk 25)) 3 = Some e'
    /\ (3%nat <> 12%nat -> calculate e' = calculate stack_junk)
    /\ (3%nat = 3%nat ->
        min e' = min stack_junk /\ max e' = max stack_junk
        /\ units e' = units stack_junk).
Proof.
  exact (setupcommands_unassigned_fields (repeat stack_junk 25) 3 stack_junk eq_refl).
Defined.

(** X10. In the catalog of [main] the request code of an active entry is
    the index of its slot, so the order of the sweep, that of the slots, is
    the ascending order of the PIDs; an active entry is one byte wide but
    Engine Speed, two bytes wide. *)
Theorem catalog_command_is_slot_index (o0 : list obdpid) (j : nat) (e : obdpid) :
  List.length o0 = 25%nat ->
  nth_error (main_catalog o0) j = Some e ->
  active e = true ->
  command e = Z.of_nat j
  /\ bytes e = (if Nat.eqb j 12 then 2 else 1)%N.
Proof.
  intros H He Ha. slots o0 H.
  do 25 (destruct j as [|j];
         [injection He as <-; first [discriminate Ha|split; reflexivity]|]).
  destruct j; discriminate He.
Qed.

Lemma catalog_command_is_slot_index_witness :
  command engine_speed = Z.of_nat 12 /\ bytes engine_speed = 2%N.
Proof.
  exact (catalog_command_is_slot_index (repeat stack_junk 25) 12 engine_speed
           eq_refl eq_refl eq_refl).
Defined.

Lemma init_slots_inactive (o0 : list obdpid) :
  List.length o0 = 25%nat -> filter active (init_slots o0) = [].
Proof. intros H. slots o0 H. reflexivity. Qed.

Lemma init_slots_length (o0 : list obdpid) :
  List.length o0 = 25%nat -> List.length (init_slots o0) = 25%nat.
Proof. intros H. slots o0 H. reflexivity. Qed.

(** X12. The ranges the catalog declares against the values it decodes.
    With the decode function of its slot, a first payload byte [a] gives a
    value inside the declared range for every byte in the slots 10, 11 and
    13, but only up to 100 for Calculated Engine Load (slot 4) and up to
    215 for Engine Coolant Temperature (slot 5): the raw byte is reported,
    whatever the range says. *)
Theorem declared_ranges_against_raw_bytes
    (o0 : list obdpid) (j : nat) (e : obdpid) (a b : Z) :
  List.length o0 = 25%nat ->
  nth_error (main_catalog o0) j = Some e ->
  In j [4; 5; 10; 11; 13]%nat ->
  0 <= a <= 255 -> 0 <= b <= 255 ->
  calculate e (double_of_Z a) (double_of_Z b) = double_of_Z a
  /\ in_range e (calculate e (double_of_Z a) (double_of_Z b))
     = (if Nat.eqb j 4 then a <=? 100 else if Nat.eqb j 5 then a <=? 215 else true).
Proof.
  intros H He Hj Ha Hb. slots o0 H.
  assert (H100 : for_all_bytes (fun a _ => Bool.eqb
            (PrimFloat.leb 0%float (double_of_Z a)
             && PrimFloat.leb (double_of_Z a) 100%float) (a <=? 100)) = true)
    by (vm_compute; reflexivity).
  assert (H215 : for_all_bytes (fun a _ => Bool.eqb
            (PrimFloat.leb (-40)%float (double_of_Z a)
             && PrimFloat.leb (double_of_Z a) 215%float) (a <=? 215)) = true)
    by (vm_compute; reflexivity).
  assert (H765 : for_all_bytes (fun a _ => Bool.eqb
            (PrimFloat.leb 0%float (double_of_Z a)
             && PrimFloat.leb (double_of_Z a) 765%float) true) = true)
    by (vm_compute; reflexivity).
  assert (H255 : for_all_bytes (fun a _ => Bool.eqb
            (PrimFloat.leb 0%float (double_of_Z a)
             && PrimFloat.leb (double_of_Z a) 255%float) true) = true)
    by (vm_compute; reflexivity).
  pose proof (for_all_bytes_spec _ H100 a b Ha Hb) as E100.
  pose proof (for_all_bytes_spec _ H215 a b Ha Hb) as E215.
  pose proof (for_all_bytes_spec _ H765 a b Ha Hb) as E765.
  pose proof (for_all_bytes_spec _ H255 a b Ha Hb) as E255.
  cbv beta in E100, E215, E765, E255.
  apply Bool.eqb_prop in E100, E215, E765, E255.
  cbn in Hj.
  destruct Hj as [<-|[<-|[<-|[<-|[<-|[]]]]]]; injection He as <-;
    (split; [reflexivity|]); unfold in_range; cbn; assumption.
Qed.

Lemma declared_ranges_against_raw_bytes_witness :
  in_range coolant (calculate coolant (double_of_Z 255) (double_of_Z 0)) = false.
Proof.
  refine (proj2 (declared_ranges_against_raw_bytes (repeat stack_junk 25) 5 coolant
                   255 0 eq_refl eq_refl _ _ _)); cbn; lia.
Defined.

(** ** Every run of the sweep *)

Lemma count_cons (p : event -> bool) (ev : event) (t : list event) :
  count p (ev :: t) = ((if p ev then 1 else 0) + count p t)%nat.
Proof. unfold count. cbn. destruct (p ev); reflexivity. Qed.

Lemma modes_app (t1 t2 : list event) : modes (t1 ++ t2) = modes t1 ++ modes t2.
Proof. apply flat_map_app. Qed.

Lemma entry_shape (x : exchange) (e : obdpid) :
  count is_send (entry_trace x e) = 1%nat
  /\ count is_destroy (entry_trace x e) = 1%nat
  /\ count is_flush (entry_trace x e) = (if status_of x =? 0 then 1%nat else 0%nat)
  /\ modes (entry_trace x e) = [OBD_MODE_1]
  /\ (status_of x = 0 \/ status_of x = 1 \/ status_of x = 2).
Proof.
  unfold entry_trace, status_of.
  destruct (send_ok x); [destruct (reply x)|]; cbn; repeat split; auto.
Qed.

(** The shape of a sweep, whatever the adapter does: [q] requests and [r]
    readings, over the first entries of the list. *)
Lemma sweep_shape (adapter : nat -> OBD_MODE -> OBD_PARAM -> exchange)
    (n : nat) (l : list obdpid) :
  exists q r : nat,
    queried (sweep_trace adapter n l) = map command (firstn q l)
    /\ readings (sweep_trace adapter n l) = expected_readings adapter n (firstn r l)
    /\ count is_send (sweep_trace adapter n l) = q
    /\ count is_destroy (sweep_trace adapter n l) = q
    /\ count is_flush (sweep_trace adapter n l) = r
    /\ modes (sweep_trace adapter n l) = repeat OBD_MODE_1 q
    /\ (q <= List.length l)%nat
    /\ (r <= List.length l)%nat
    /\ (sweep_status adapter n l = 0 /\ q = List.length l /\ r = List.length l
        \/ (sweep_status adapter n l = 1 \/ sweep_status adapter n l = 2)
           /\ q = S r).
Proof.
  revert n. induction l as [|e l IH]; intros n.
  - exists 0%nat, 0%nat. cbn. repeat split; auto.
  - cbn [sweep_trace sweep_status].
    set (x := adapter n OBD_MODE_1 (command e)).
    destruct (entry_shape x e) as (Hs & Hd & Hf & Hm & Hst).
    rewrite queried_app, readings_app, !count_app, modes_app,
      queried_entry_trace, readings_entry_trace, Hs, Hd, Hf, Hm.
    destruct (status_of x =? 0) eqn:E.
    + destruct (IH (S n)) as (q & r & Hq & Hr & H1 & H2 & H3 & H4 & Hql & Hrl & H5).
      exists (S q), (S r). cbn [firstn map expected_readings List.length repeat].
      fold x. rewrite Hq, Hr, H1, H2, H3, H4.
      repeat split; try reflexivity; lia.
    + apply Z.eqb_neq in E.
      exists 1%nat, 0%nat. cbn [firstn map expected_readings List.length repeat].
      rewrite !app_nil_r. cbn [count filter List.length].
      repeat split; try reflexivity; lia.
Qed.

(** ** The whole program *)

Lemma catalog_active_count (o0 : list obdpid) :
  List.length o0 = 25%nat ->
  List.length (filter active (main_catalog o0)) = 7%nat.
Proof. intros H. slots o0 H. reflexivity. Qed.

Lemma sweep_status_all_answered
    (adapter : nat -> OBD_MODE -> OBD_PARAM -> exchange) (n : nat) (l : list obdpid) :
  sweep_status adapter n l = 0 <-> all_answered adapter n l = true.
Proof.
  split; [apply sweep_status_zero|]. intros H. apply sweep_complete in H. tauto.
Qed.

(** X17. In a run that is not interrupted the report is closed after the
    last reading is written and the adapter is shut down last: the run
    ends with the [done] line, [fclose] and [elm327_shutdown], and neither
    call occurs earlier. *)
Theorem main_complete_closes_last
    (adapter : nat -> OBD_MODE -> OBD_PARAM -> exchange) (elm_open : string -> Z)
    (argv : list string) (device_name output_file : string)
    (o0 : list obdpid) (w : world) :
  parse_args argv = Some (device_name, output_file) ->
  List.length o0 = 25%nat ->
  fst (main adapter elm_open argv o0 w) = Next tt ->
  exists body,
    events (snd (main adapter elm_open argv o0 w))
    = events w ++ body ++ [EvStdout ("done" ++ LF); EvFclose; EvShutdown]
    /\ count is_fclose body = 0%nat
    /\ count is_shutdown body = 0%nat
    /\ count is_fopen body = 1%nat
    /\ List.length (readings body) = 7%nat.
Proof.
  intros Hargs Hlen Hrun.
  destruct (main_trace adapter elm_open argv device_name output_file o0 w
              Hargs Hlen) as [H1 H2].
  cbv zeta in H1, H2. rewrite Hrun in H1.
  destruct (_ =? 0) eqn:E; [|discriminate H1].
  apply Z.eqb_eq, sweep_status_all_answered, sweep_complete in E as (_ & Hr & _).
  exists ([EvStdout ("initializing connection" ++ LF); EvInit device_name;
           EvSetTimeout 3000; EvStdout ("initializing vehicle info pids" ++ LF);
           EvStdout ("gathering data..." ++ LF); EvFopen output_file "w"]
          ++ sweep_trace adapter (exchanges w) (filter active (main_catalog o0))).
  split; [rewrite H2, <- app_assoc; reflexivity|].
  rewrite !count_app, !sweep_count by (intros; reflexivity).
  rewrite readings_app, Hr, length_app.
  rewrite <- (length_map fst (expected_readings _ _ _)), expected_readings_names,
    length_map, (catalog_active_count o0 Hlen).
  repeat split.
Qed.

Lemma main_complete_closes_last_witness :
  exists body,
    events (snd (main adapter_steady (fun _ => 3) ["elm327diag"; "-o"]
                   (repeat stack_junk 25) w_init))
    = events w_init ++ body ++ [EvStdout ("done" ++ LF); EvFclose; EvShutdown]
    /\ count is_fclose body = 0%nat
    /\ count is_shutdown body = 0%nat
    /\ count is_fopen body = 1%nat
    /\ List.length (readings body) = 7%nat.
Proof.
  exact (main_complete_closes_last adapter_steady (fun _ => 3) ["elm327diag"; "-o"]
           DEFAULT_DEVICE_NAME DEFAULT_OUTPUT_FILE (repeat stack_junk 25) w_init
           eq_refl eq_refl eq_refl).
Defined.



(** ** The decoders *)

Lemma rpmFormula_quarters (a b : Z) : (rpmFormula a b == (a * 256 + b) # 4)%Q.
Proof.
  unfold rpmFormula, Qdiv, Qmult, Qplus, Qinv, inject_Z, Qeq. cbn. lia.
Qed.

(** X19. The engine-speed decoding loses nothing: on byte values, two
    payloads that decode to the same double are the same payload. *)
Theorem rpmcalc_injective_on_bytes (a b a' b' : Z) :
  0 <= a <= 255 -> 0 <= b <= 255 -> 0 <= a' <= 255 -> 0 <= b' <= 255 ->
  rpmcalc (double_of_Z a) (double_of_Z b) = rpmcalc (double_of_Z a') (double_of_Z b') ->
  a = a' /\ b = b'.
Proof.
  intros Ha Hb Ha' Hb' Heq.
  pose proof (for_all_bytes_spec rpm_exact rpm_exact_all a b Ha Hb) as H.
  pose proof (for_all_bytes_spec rpm_exact rpm_exact_all a' b' Ha' Hb') as H'.
  unfold rpm_exact in H, H'. rewrite <- Heq in H'.
  destruct (double_to_Q (rpmcalc (double_of_Z a) (double_of_Z b))) as [q|];
    [|discriminate H].
  apply Qeq_bool_iff in H, H'.
  rewrite rpmFormula_quarters in H, H'. rewrite H in H'.
  unfold Qeq in H'. cbn in H'. lia.
Qed.

Lemma rpmcalc_injective_on_bytes_witness : 26 = 26 /\ 44 = 44.
Proof.
  apply (rpmcalc_injective_on_bytes 26 44 26 44); try lia. reflexivity.
Defined.

Lemma string_app_assoc (s1 s2 s3 : string) :
  ((s1 ++ s2) ++ s3 = s1 ++ s2 ++ s3)%string.
Proof. induction s1 as [|c s1 IH]; cbn; [reflexivity|]. rewrite IH. reflexivity. Qed.

Lemma rpm_printed_all : for_all_bytes rpm_printed = true.
Proof. vm_compute. reflexivity. Qed.

Lemma byte_printed_all : forallb byte_printed byte_values = true.
Proof. vm_compute. reflexivity. Qed.

(** X20. No reading of a byte payload is rounded in the report.  The line
    written for a value of [rpmcalc] shows the quotient of [a * 256 + b] by
    4 and the exact decimals of the remaining quarters; the line written
    for a value of [stdcalc] shows the first byte followed by six zeros. *)
Theorem report_lines_are_exact (name : string) (a b : Z) :
  0 <= a <= 255 -> 0 <= b <= 255 ->
  report_line name (rpmcalc (double_of_Z a) (double_of_Z b))
  = (name ++ ", " ++ decimal ((a * 256 + b) / 4) ++ "."
     ++ quarter_decimals ((a * 256 + b) mod 4) ++ LF)%string
  /\ report_line name (stdcalc (double_of_Z a) (double_of_Z b))
     = (name ++ ", " ++ decimal a ++ ".000000" ++ LF)%string.
Proof.
  intros Ha Hb.
  pose proof (for_all_bytes_spec rpm_printed rpm_printed_all a b Ha Hb) as H1.
  pose proof byte_printed_all as H2. rewrite forallb_forall in H2.
  specialize (H2 a (byte_values_In a Ha)).
  unfold rpm_printed in H1. unfold byte_printed in H2.
  apply String.eqb_eq in H1, H2.
  unfold report_line, stdcalc. rewrite H1, H2.
  rewrite !string_app_assoc. split; reflexivity.
Qed.

Lemma report_lines_are_exact_witness :
  report_line "Engine Speed" (rpmcalc (double_of_Z 26) (double_of_Z 45))
  = ("Engine Speed, 1675.250000" ++ LF)%string.
Proof.
  refine (proj1 (report_lines_are_exact "Engine Speed" 26 45 _ _)); lia.
Defined.

(** * The process, with a report that may fail to open *)

(** ** The run with a stream is the run of [main] *)

Section ProcessRun.

Variable adapter : nat -> OBD_MODE -> OBD_PARAM -> exchange.
Variable elm_open : string -> Z.
Variable can_open : string -> bool.
Variable elm_fd : Z.

Lemma process_gather_entry_inactive (out : option string) (e : obdpid) (w : world) :
  active e = false ->
  Process.gather_entry adapter out elm_fd e w = (Process.Goes tt, w).
Proof.
  unfold active, Process.gather_entry. intros ->. reflexivity.
Qed.

Lemma process_gather_entry_opened (path : string) (e : obdpid) (w : world) :
  Process.gather_entry adapter (Some path) elm_fd e w
  = Process.lift (gather_entry adapter elm_fd e) w.
Proof.
  unfold Process.gather_entry, gather_entry.
  destruct (0 <? bytes e)%N; [|reflexivity].
  unfold Process.bind, Process.lift, bind, Process.fprintf_out.
  destruct (QUERY_OR_ERR adapter elm_fd OBD_MODE_1 (command e) None w)
    as [[r|c] w1]; reflexivity.
Qed.

Lemma process_gather_entry_null (e : obdpid) (w : world) :
  active e = true ->
  Process.gather_entry adapter None elm_fd e w =
    (let x := adapter (exchanges w) OBD_MODE_1 (command e) in
     (if status_of x =? 0 then Process.Killed else Process.Ends (status_of x),
      mk_world (events w ++ null_entry_trace x (command e)) (S (exchanges w)) None)).
Proof.
  unfold active, Process.gather_entry. intros ->.
  unfold Process.bind, Process.lift, Process.fprintf_out, QUERY_OR_ERR, query_elm,
    bind, elm327_send_msg, elm327_recv_msgs, elm327_flush,
    elm327_destroy_recv_msgs, emit, exit_, ret, status_of, null_entry_trace.
  cbn [exchanges events pending].
  destruct (adapter (exchanges w) OBD_MODE_1 (command e)) as [ok rp].
  destruct ok; cbn; [destruct rp as [m|]; cbn|];
    rewrite <- ?app_assoc; reflexivity.
Qed.

Lemma process_for_gather_list (out : option string) (l pre : list obdpid) (w : world) :
  Process.for_ (List.length l) (List.length pre)
    (Process.gather_body adapter out elm_fd (pre ++ l)) w
  = Process.gather_list adapter out elm_fd l w.
Proof.
  revert pre w. induction l as [|e l IH]; intros pre w; [reflexivity|].
  cbn [List.length Process.for_ Process.gather_list].
  unfold Process.bind, Process.gather_body at 1.
  rewrite nth_error_app2, Nat.sub_diag by reflexivity. cbn [nth_error].
  destruct (Process.gather_entry adapter out elm_fd e w) as [[[]|c|] w1];
    try reflexivity.
  specialize (IH (pre ++ [e]) w1).
  rewrite <- app_assoc, length_app, Nat.add_comm in IH. exact IH.
Qed.

Lemma process_gather_list_filter (out : option string) (l : list obdpid) (w : world) :
  Process.gather_list adapter out elm_fd l w
  = Process.gather_list adapter out elm_fd (filter active l) w.
Proof.
  revert w. induction l as [|e l IH]; intros w; [reflexivity|].
  cbn [filter Process.gather_list]. destruct (active e) eqn:He.
  - cbn [Process.gather_list]. unfold Process.bind.
    destruct (Process.gather_entry adapter out elm_fd e w) as [[[]|c|] w1];
      try reflexivity. apply IH.
  - unfold Process.bind. rewrite process_gather_entry_inactive by exact He. apply IH.
Qed.

Lemma process_gather_list_opened (path : string) (l : list obdpid) (w : world) :
  Process.gather_list adapter (Some path) elm_fd l w
  = Process.lift (gather_list adapter elm_fd l) w.
Proof.
  revert w. induction l as [|e l IH]; intros w; [reflexivity|].
  cbn [Process.gather_list gather_list]. unfold Process.bind.
  rewrite process_gather_entry_opened. unfold Process.lift at 1 2, bind.
  destruct (gather_entry adapter elm_fd e w) as [[[]|c] w1]; [|reflexivity].
  apply IH.
Qed.

(** With [out] a null stream the loop stops at the first active slot. *)
Lemma process_gather_list_null (l : list obdpid) (w : world) :
  forallb active l = true ->
  Process.gather_list adapter None elm_fd l w =
    match l with
    | [] => (Process.Goes tt, w)
    | e :: _ =>
        let x := adapter (exchanges w) OBD_MODE_1 (command e) in
        (if status_of x =? 0 then Process.Killed else Process.Ends (status_of x),
         mk_world (events w ++ null_entry_trace x (command e)) (S (exchanges w)) None)
    end.
Proof.
  destruct l as [|e l]; [reflexivity|]. cbn [forallb]. intros H.
  apply andb_true_iff in H as [He _].
  cbn [Process.gather_list]. unfold Process.bind.
  rewrite process_gather_entry_null by exact He. cbv zeta.
  destruct (status_of (adapter (exchanges w) OBD_MODE_1 (command e)) =? 0);
    reflexivity.
Qed.

Lemma filter_active_all (o : list obdpid) : forallb active (filter active o) = true.
Proof. apply forallb_forall. intros e He. apply filter_In in He. tauto. Qed.

(** The block that gathers the data when the report opens: the run of
    [gather_data]. *)
Lemma process_gather_data_opened (output_file : string) (o : list obdpid) (w : world) :
  List.length o = 25%nat ->
  can_open output_file = true ->
  Process.gather_data adapter can_open elm_fd output_file o w
  = Process.lift (gather_data adapter elm_fd output_file o) w.
Proof.
  intros Hlen Hopen.
  pose proof (fun w1 => process_for_gather_list (Some output_file) o [] w1) as Hp.
  pose proof (fun w1 => for_gather_list adapter elm_fd o [] w1) as Hm.
  rewrite Hlen in Hp, Hm. cbn [List.length app] in Hp, Hm.
  cbv [Process.gather_data gather_data Process.bind Process.lift bind
       Process.fopen Process.fclose fprintf_stdout fopen fclose emit].
  cbn [events exchanges pending]. rewrite Hopen.
  cbn [events exchanges pending].
  rewrite Hp, process_gather_list_opened, Hm. unfold Process.lift.
  destruct (gather_list adapter elm_fd o _) as [[[]|c] w2]; reflexivity.
Qed.

(** The block that gathers the data when the report does not open: the
    first active slot is asked, and the process is killed in the
    [fprintf(out, ...)] that follows an answer; with no active slot it is
    killed in [fclose(out)]. *)
Lemma process_gather_data_null (output_file : string) (o : list obdpid) (w : world) :
  List.length o = 25%nat ->
  can_open output_file = false ->
  Process.gather_data adapter can_open elm_fd output_file o w =
    match filter active o with
    | [] =>
        (Process.Killed,
         mk_world (events w ++ [EvStdout ("gathering data..." ++ LF);
                                EvFopenNull output_file "w";
                                EvStdout ("done" ++ LF)])
                  (exchanges w) (pending w))
    | e :: _ =>
        let x := adapter (exchanges w) OBD_MODE_1 (command e) in
        (if status_of x =? 0 then Process.Killed else Process.Ends (status_of x),
         mk_world (events w ++ [EvStdout ("gathering data..." ++ LF);
                                EvFopenNull output_file "w"]
                            ++ null_entry_trace x (command e))
                  (S (exchanges w)) None)
    end.
Proof.
  intros Hlen Hopen.
  pose proof (fun w1 => process_for_gather_list None o [] w1) as Hp.
  rewrite Hlen in Hp. cbn [List.length app] in Hp.
  cbv [Process.gather_data Process.bind Process.lift Process.fopen Process.fclose
       fprintf_stdout emit].
  cbn [events exchanges pending]. rewrite Hopen.
  cbn [events exchanges pending].
  rewrite Hp, process_gather_list_filter,
    (process_gather_list_null _ _ (filter_active_all o)).
  destruct (filter active o) as [|e l].
  - cbn. rewrite <- !app_assoc. reflexivity.
  - cbv zeta. cbn [events exchanges].
    destruct (status_of _ =? 0); rewrite <- !app_assoc; reflexivity.
Qed.

End ProcessRun.

(** ** Facts about the traces of a null stream *)

Lemma null_entry_shape (x : exchange) (pid : OBD_PARAM) :
  queried (null_entry_trace x pid) = [pid]
  /\ readings (null_entry_trace x pid) = []
  /\ count is_send (null_entry_trace x pid) = 1%nat
  /\ count is_destroy (null_entry_trace x pid) = 1%nat
  /\ count is_flush (null_entry_trace x pid)
     = (if status_of x =? 0 then 1%nat else 0%nat)
  /\ modes (null_entry_trace x pid) = [OBD_MODE_1]
  /\ count is_fopen (null_entry_trace x pid) = 0%nat
  /\ closes (null_entry_trace x pid) = 0%nat
  /\ (status_of x = 0 \/ status_of x = 1 \/ status_of x = 2).
Proof.
  unfold null_entry_trace, status_of, closes.
  destruct (send_ok x); [destruct (reply x)|]; cbn; repeat split; auto.
Qed.

Lemma lift_fst {A : Type} (m : M A) (w : world) :
  fst (Process.lift m w)
  = match fst (m w) with Next a => Process.Goes a | Exit c => Process.Ends c end.
Proof. unfold Process.lift. destruct (m w) as [[a|c] w']; reflexivity. Qed.

Lemma lift_snd {A : Type} (m : M A) (w : world) :
  snd (Process.lift m w) = snd (m w).
Proof. unfold Process.lift. destruct (m w) as [[a|c] w']; reflexivity. Qed.

(** ** Every run of the sweep *)

(** X13. Whatever the adapter does and whether the report opens or not,
    over an array of 25 slots the requests sent are those of the first [q]
    active slots and the readings written those of the first [r], in the
    order of the slots.  Either the block runs to its end, the report
    being open, and both cover every active slot; or [main] returns 1 or
    2 and the last request has no reading; or the report did not open and
    the process is killed with nothing written and at most one request
    sent. *)
Theorem process_report_is_prefix
    (adapter : nat -> OBD_MODE -> OBD_PARAM -> exchange) (can_open : string -> bool)
    (elm_fd : Z) (output_file : string) (o : list obdpid) (w : world) :
  List.length o = 25%nat ->
  let run := Process.gather_data adapter can_open elm_fd output_file o w in
  let acts := filter active o in
  exists q r : nat,
    queried (events (snd run)) = queried (events w) ++ map command (firstn q acts)
    /\ readings (events (snd run))
       = readings (events w) ++ expected_readings adapter (exchanges w) (firstn r acts)
    /\ map fst (readings (events (snd run)))
       = map fst (readings (events w)) ++ map commandname (firstn r acts)
    /\ (fst run = Process.Goes tt /\ can_open output_file = true
        /\ q = List.length acts /\ r = List.length acts
        \/ (fst run = Process.Ends 1 \/ fst run = Process.Ends 2)
           /\ q = S r /\ (q <= List.length acts)%nat
        \/ fst run = Process.Killed /\ can_open output_file = false
           /\ r = 0%nat /\ (q <= 1)%nat /\ (q <= List.length acts)%nat).
Proof.
  intros Hlen run acts. subst run.
  destruct (can_open output_file) eqn:Hopen.
  - rewrite (process_gather_data_opened adapter can_open elm_fd output_file o w
               Hlen Hopen), lift_fst, lift_snd.
    destruct (gather_data_trace adapter elm_fd output_file o w Hlen) as [H1 H2].
    cbv zeta in H1, H2. fold acts in H1, H2.
    destruct (sweep_shape adapter (exchanges w) acts)
      as (q & r & Hq & Hr & _ & _ & _ & _ & Hql & _ & H5).
    exists q, r.
    assert (Hrt : readings (events (snd (gather_data adapter elm_fd output_file o w)))
                  = readings (events w)
                    ++ expected_readings adapter (exchanges w) (firstn r acts)).
    { rewrite H2, !readings_app, Hr.
      destruct (_ =? 0); cbn; rewrite ?app_nil_r; reflexivity. }
    split; [|split; [exact Hrt|split]].
    + rewrite H2, !queried_app, Hq.
      destruct (_ =? 0); cbn; rewrite ?app_nil_r; reflexivity.
    + rewrite Hrt, map_app, expected_readings_names. reflexivity.
    + rewrite H1.
      destruct H5 as [(Ha & Hb & Hc)|([Ha|Ha] & Hb)]; rewrite Ha; cbn.
      * left. repeat split; assumption.
      * right. left. repeat split; auto.
      * right. left. repeat split; auto.
  - rewrite (process_gather_data_null adapter can_open elm_fd output_file o w
               Hlen Hopen). fold acts.
    destruct acts as [|e l].
    + exists 0%nat, 0%nat. cbn [fst snd events firstn map expected_readings].
      rewrite queried_app, readings_app. cbn. rewrite !app_nil_r.
      repeat split. right. right. repeat split; lia.
    + cbv zeta. cbn [fst snd events].
      destruct (null_entry_shape (adapter (exchanges w) OBD_MODE_1 (command e))
                  (command e)) as (Hq & Hr & _ & _ & _ & _ & _ & _ & Hst).
      exists 1%nat, 0%nat. cbn [firstn map expected_readings List.length].
      rewrite !queried_app, !readings_app, Hq, Hr. cbn [queried readings flat_map app].
      rewrite !app_nil_r. repeat split.
      destruct (status_of _ =? 0) eqn:E.
      * right. right. repeat split; lia.
      * right. left. apply Z.eqb_neq in E.
        destruct Hst as [H|[H|H]]; [contradiction|rewrite H|rewrite H];
          repeat split; auto; lia.
Qed.

Lemma process_report_is_prefix_witness :
  exists q r : nat,
    queried (events (snd (Process.gather_data adapter_steady fs_none 3
                            "/nonexistent/a.csv" scenario_catalog w_init)))
      = queried (events w_init) ++ map command (firstn q (filter active scenario_catalog))
    /\ readings (events (snd (Process.gather_data adapter_steady fs_none 3
                                "/nonexistent/a.csv" scenario_catalog w_init)))
       = readings (events w_init)
         ++ expected_readings adapter_steady (exchanges w_init)
              (firstn r (filter active scenario_catalog))
    /\ map fst (readings (events (snd (Process.gather_data adapter_steady fs_none 3
                                         "/nonexistent/a.csv" scenario_catalog w_init))))
       = map fst (readings (events w_init))
         ++ map commandname (firstn r (filter active scenario_catalog))
    /\ (fst (Process.gather_data adapter_steady fs_none 3 "/nonexistent/a.csv"
               scenario_catalog w_init) = Process.Goes tt
        /\ fs_none "/nonexistent/a.csv" = true
        /\ q = List.length (filter active scenario_catalog)
        /\ r = List.length (filter active scenario_catalog)
        \/ (fst (Process.gather_data adapter_steady fs_none 3 "/nonexistent/a.csv"
                   scenario_catalog w_init) = Process.Ends 1
            \/ fst (Process.gather_data adapter_steady fs_none 3 "/nonexistent/a.csv"
                      scenario_catalog w_init) = Process.Ends 2)
           /\ q = S r /\ (q <= List.length (filter active scenario_catalog))%nat
        \/ fst (Process.gather_data adapter_steady fs_none 3 "/nonexistent/a.csv"
                  scenario_catalog w_init) = Process.Killed
           /\ fs_none "/nonexistent/a.csv" = false
           /\ r = 0%nat /\ (q <= 1)%nat
           /\ (q <= List.length (filter active scenario_catalog))%nat).
Proof.
  exact (process_report_is_prefix adapter_steady fs_none 3 "/nonexistent/a.csv"
           scenario_catalog w_init eq_refl).
Defined.

(** X14. In every run of the block, completed or not, with the report open
    or not: every request is a Mode-1 request and is matched by exactly
    one call of [elm327_destroy_recv_msgs]; there are [r] readings, [f]
    flushes and [q] requests with [r <= f <= q <= f + 1]; when the report
    is open the adapter is flushed once per reading written, and when it
    is not nothing is written and at most one request is sent. *)
Theorem process_requests_destroys_flushes
    (adapter : nat -> OBD_MODE -> OBD_PARAM -> exchange) (can_open : string -> bool)
    (elm_fd : Z) (output_file : string) (o : list obdpid) (w : world) :
  List.length o = 25%nat ->
  let t := events (snd (Process.gather_data adapter can_open elm_fd output_file o w)) in
  exists q f r : nat,
    count is_send t = (count is_send (events w) + q)%nat
    /\ count is_destroy t = (count is_destroy (events w) + q)%nat
    /\ count is_flush t = (count is_flush (events w) + f)%nat
    /\ List.length (readings t) = (List.length (readings (events w)) + r)%nat
    /\ modes t = modes (events w) ++ repeat OBD_MODE_1 q
    /\ (r <= f <= q)%nat /\ (q <= S f)%nat
    /\ (can_open output_file = true -> f = r)
    /\ (can_open output_file = false -> r = 0%nat /\ (q <= 1)%nat).
Proof.
  intros Hlen t. subst t.
  destruct (can_open output_file) eqn:Hopen.
  - rewrite (process_gather_data_opened adapter can_open elm_fd output_file o w
               Hlen Hopen), lift_snd.
    destruct (gather_data_trace adapter elm_fd output_file o w Hlen) as [_ H2].
    cbv zeta in H2.
    destruct (sweep_shape adapter (exchanges w) (filter active o))
      as (q & r & _ & Hr & Hs & Hd & Hf & Hm & _ & Hrl & H5).
    exists q, r, r. rewrite H2, !count_app, !readings_app, !modes_app, !length_app.
    rewrite Hs, Hd, Hf, Hm, Hr.
    rewrite <- (length_map fst (expected_readings _ _ _)), expected_readings_names,
      length_map, (firstn_length_le _ Hrl).
    destruct (_ =? 0); cbn; rewrite ?app_nil_r;
      (repeat split; try discriminate; try lia;
       destruct H5 as [(_ & Ha & Hb)|(_ & Ha)]; lia).
  - rewrite (process_gather_data_null adapter can_open elm_fd output_file o w
               Hlen Hopen).
    destruct (filter active o) as [|e l].
    + exists 0%nat, 0%nat, 0%nat. cbn [snd events].
      rewrite !count_app, !readings_app, !modes_app, !length_app. cbn.
      rewrite !app_nil_r. repeat split; try discriminate; lia.
    + cbv zeta. cbn [snd events].
      destruct (null_entry_shape (adapter (exchanges w) OBD_MODE_1 (command e))
                  (command e)) as (_ & Hr & Hs & Hd & Hf & Hm & _ & _ & _).
      exists 1%nat, (if status_of (adapter (exchanges w) OBD_MODE_1 (command e)) =? 0
                     then 1%nat else 0%nat), 0%nat.
      rewrite !count_app, !readings_app, !modes_app, !length_app, Hr, Hs, Hd, Hf, Hm.
      cbn. destruct (_ =? 0); repeat split; try discriminate; lia.
Qed.

Lemma process_requests_destroys_flushes_witness :
  exists q f r : nat,
    count is_send (events (snd (Process.gather_data adapter_steady fs_none 3
                                  "/nonexistent/a.csv" scenario_catalog w_init)))
      = (count is_send (events w_init) + q)%nat
    /\ count is_destroy (events (snd (Process.gather_data adapter_steady fs_none 3
                                        "/nonexistent/a.csv" scenario_catalog w_init)))
       = (count is_destroy (events w_init) + q)%nat
    /\ count is_flush (events (snd (Process.gather_data adapter_steady fs_none 3
                                      "/nonexistent/a.csv" scenario_catalog w_init)))
       = (count is_flush (events w_init) + f)%nat
    /\ List.length (readings (events (snd (Process.gather_data adapter_steady fs_none 3
                                             "/nonexistent/a.csv" scenario_catalog
                                             w_init))))
       = (List.length (readings (events w_init)) + r)%nat
    /\ modes (events (snd (Process.gather_data adapter_steady fs_none 3
                             "/nonexistent/a.csv" scenario_catalog w_init)))
       = modes (events w_init) ++ repeat OBD_MODE_1 q
    /\ (r <= f <= q)%nat /\ (q <= S f)%nat
    /\ (fs_none "/nonexistent/a.csv" = true -> f = r)
    /\ (fs_none "/nonexistent/a.csv" = false -> r = 0%nat /\ (q <= 1)%nat).
Proof.
  exact (process_requests_destroys_flushes adapter_steady fs_none 3
           "/nonexistent/a.csv" scenario_catalog w_init eq_refl).
Defined.

(** X11. The first loop of [main] alone leaves every one of the 25 slots
    inactive with the [stdcalc] rule, whatever the array held: a sweep over
    the table it leaves sends no request and writes no reading.  It runs
    to its end when the report is open; when the report did not open the
    process is killed in [fclose(out)]. *)
Theorem process_sweep_after_init_only
    (adapter : nat -> OBD_MODE -> OBD_PARAM -> exchange) (can_open : string -> bool)
    (elm_fd : Z) (output_file : string) (o0 : list obdpid) (w : world) :
  List.length o0 = 25%nat ->
  let run := Process.gather_data adapter can_open elm_fd output_file (init_slots o0) w in
  fst run = (if can_open output_file then Process.Goes tt else Process.Killed)
  /\ queried (events (snd run)) = queried (events w)
  /\ readings (events (snd run)) = readings (events w)
  /\ count is_send (events (snd run)) = count is_send (events w)
  /\ Forall (fun e => calculate e = stdcalc /\ bytes e = 0%N) (init_slots o0).
Proof.
  intros Hlen run. subst run.
  assert (Hall : Forall (fun e => calculate e = stdcalc /\ bytes e = 0%N)
                   (init_slots o0)).
  { clear -Hlen. slots o0 Hlen. repeat constructor. }
  destruct (can_open output_file) eqn:Hopen.
  - rewrite (process_gather_data_opened adapter can_open elm_fd output_file _ w
               (init_slots_length o0 Hlen) Hopen), lift_fst, lift_snd.
    destruct (gather_data_trace adapter elm_fd output_file (init_slots o0) w
                (init_slots_length o0 Hlen)) as [H1 H2].
    cbv zeta in H1, H2. rewrite (init_slots_inactive o0 Hlen) in H1, H2.
    cbn [sweep_status sweep_trace Z.eqb app] in H1, H2.
    rewrite H1, H2, !queried_app, !readings_app, !count_app.
    cbn. rewrite !app_nil_r, Nat.add_0_r. repeat split. exact Hall.
  - rewrite (process_gather_data_null adapter can_open elm_fd output_file _ w
               (init_slots_length o0 Hlen) Hopen), (init_slots_inactive o0 Hlen).
    cbn [fst snd events]. rewrite !queried_app, !readings_app, !count_app.
    cbn. rewrite !app_nil_r, Nat.add_0_r. repeat split. exact Hall.
Qed.

Lemma process_sweep_after_init_only_witness :
  fst (Process.gather_data adapter_steady fs_none 3 "/nonexistent/a.csv"
         (init_slots (repeat stack_junk 25)) w_init) = Process.Killed.
Proof.
  exact (proj1 (process_sweep_after_init_only adapter_steady fs_none 3
                  "/nonexistent/a.csv" (repeat stack_junk 25) w_init eq_refl)).
Defined.

(** ** The whole process *)

Lemma catalog_first_active (o0 : list obdpid) :
  List.length o0 = 25%nat ->
  exists e l, filter active (main_catalog o0) = e :: l /\ command e = 0x03.
Proof.
  intros H.
  assert (Hc : map command (filter active (main_catalog o0))
               = [0x03; 0x04; 0x05; 0x0A; 0x0B; 0x0C; 0x0D])
    by (slots o0 H; reflexivity).
  destruct (filter active (main_catalog o0)) as [|e l]; [discriminate Hc|].
  exists e, l. split; [reflexivity|]. cbn in Hc. congruence.
Qed.

Section ProcessMain.

Variable adapter : nat -> OBD_MODE -> OBD_PARAM -> exchange.
Variable elm_open : string -> Z.
Variable can_open : string -> bool.

Lemma process_main_refused (argv : list string) (o0 : list obdpid) (w : world) :
  parse_args argv = None ->
  Process.main adapter elm_open can_open argv o0 w
  = (Process.Ends 1,
     mk_world (events w ++ map EvStdout (usage (hd "" argv))) (exchanges w) (pending w)).
Proof.
  intros Hargs. unfold Process.main. rewrite Hargs.
  unfold Process.bind, Process.lift. rewrite printf_all_trace. reflexivity.
Qed.

Lemma process_main_opened (argv : list string) (device_name output_file : string)
    (o0 : list obdpid) (w : world) :
  parse_args argv = Some (device_name, output_file) ->
  List.length o0 = 25%nat ->
  can_open output_file = true ->
  Process.main adapter elm_open can_open argv o0 w
  = Process.lift (main adapter elm_open argv o0) w.
Proof.
  intros Hargs Hlen Hopen. unfold Process.main, main. rewrite Hargs.
  cbv [Process.bind Process.lift bind fprintf_stdout elm327_init elm327_set_timeout
       elm327_shutdown emit ret].
  cbn [events exchanges pending].
  change (setupcommands (init_slots o0)) with (main_catalog o0).
  rewrite (process_gather_data_opened adapter can_open (elm_open device_name)
             output_file _ _ (main_catalog_length o0 Hlen) Hopen).
  unfold Process.lift.
  destruct (gather_data _ _ _ _ _) as [[[]|c] w2]; reflexivity.
Qed.

Lemma process_main_null (argv : list string) (device_name output_file : string)
    (o0 : list obdpid) (w : world) :
  parse_args argv = Some (device_name, output_file) ->
  List.length o0 = 25%nat ->
  can_open output_file = false ->
  Process.main adapter elm_open can_open argv o0 w =
    (let x := adapter (exchanges w) OBD_MODE_1 0x03 in
     (if status_of x =? 0 then Process.Killed else Process.Ends (status_of x),
      mk_world (events w
                ++ [EvStdout ("initializing connection" ++ LF); EvInit device_name;
                    EvSetTimeout 3000;
                    EvStdout ("initializing vehicle info pids" ++ LF);
                    EvStdout ("gathering data..." ++ LF);
                    EvFopenNull output_file "w"]
                ++ null_entry_trace x 0x03)
               (S (exchanges w)) None)).
Proof.
  intros Hargs Hlen Hopen. unfold Process.main. rewrite Hargs.
  cbv [Process.bind Process.lift fprintf_stdout elm327_init elm327_set_timeout
       elm327_shutdown emit ret bind].
  cbn [events exchanges pending].
  change (setupcommands (init_slots o0)) with (main_catalog o0).
  rewrite (process_gather_data_null adapter can_open (elm_open device_name)
             output_file _ _ (main_catalog_length o0 Hlen) Hopen).
  destruct (catalog_first_active o0 Hlen) as (e & l & He & Hc).
  rewrite He, Hc. cbv zeta. cbn [events exchanges].
  destruct (status_of _ =? 0); rewrite <- !app_assoc; reflexivity.
Qed.

(** The process when the report opens: it always ends by [exit], and the
    report is closed by [fclose] on the path that reaches it and by the C
    runtime when [QUERY_OR_ERR] returns from [main]. *)
Lemma process_trace_opened (argv : list string) (device_name output_file : string)
    (o0 : list obdpid) :
  parse_args argv = Some (device_name, output_file) ->
  List.length o0 = 25%nat ->
  can_open output_file = true ->
  let st := sweep_status adapter 0 (filter active (main_catalog o0)) in
  let run := Process.process adapter elm_open can_open argv o0 w_init in
  fst run = Process.Ends st
  /\ events (snd run)
     = [EvStdout ("initializing connection" ++ LF); EvInit device_name;
        EvSetTimeout 3000; EvStdout ("initializing vehicle info pids" ++ LF);
        EvStdout ("gathering data..." ++ LF); EvFopen output_file "w"]
       ++ sweep_trace adapter 0 (filter active (main_catalog o0))
       ++ (if st =? 0
           then [EvStdout ("done" ++ LF); EvFclose; EvShutdown]
           else [EvExitClose]).
Proof.
  intros Hargs Hlen Hopen st run. subst run. unfold Process.process.
  rewrite (process_main_opened argv device_name output_file o0 w_init Hargs Hlen Hopen).
  destruct (main_trace adapter elm_open argv device_name output_file o0 w_init
              Hargs Hlen) as [H1 H2].
  cbv zeta in H1, H2. cbn [exchanges events w_init] in H1, H2.
  rewrite app_nil_l in H2. fold st in H1, H2.
  unfold Process.lift.
  destruct (main adapter elm_open argv o0 w_init) as [[[]|c] w'];
    cbn [fst snd] in H1, H2; unfold Process.crt_exit; cbn [fst snd events];
    rewrite H2; unfold open_streams;
    rewrite !count_app, !sweep_count by (intros; reflexivity).
  - destruct (st =? 0) eqn:E; [|discriminate H1]. apply Z.eqb_eq in E.
    rewrite E. cbn. rewrite app_nil_r. split; reflexivity.
  - destruct (st =? 0) eqn:E; [discriminate H1|]. injection H1 as ->.
    cbn. rewrite <- !app_assoc. split; reflexivity.
Qed.

End ProcessMain.

Lemma closes_app (t1 t2 : list event) : closes (t1 ++ t2) = (closes t1 + closes t2)%nat.
Proof. unfold closes. rewrite !count_app. lia. Qed.

Lemma sweep_never_opens_or_closes
    (adapter : nat -> OBD_MODE -> OBD_PARAM -> exchange) (n : nat) (l : list obdpid) :
  count is_fopen (sweep_trace adapter n l) = 0%nat
  /\ count is_fopen_null (sweep_trace adapter n l) = 0%nat
  /\ closes (sweep_trace adapter n l) = 0%nat.
Proof.
  unfold closes. rewrite !sweep_count by (intros; reflexivity). repeat split.
Qed.

Lemma sweep_status_range
    (adapter : nat -> OBD_MODE -> OBD_PARAM -> exchange) (n : nat) (l : list obdpid) :
  sweep_status adapter n l = 0 \/ sweep_status adapter n l = 1
  \/ sweep_status adapter n l = 2.
Proof.
  destruct (sweep_shape adapter n l)
    as (q & r & _ & _ & _ & _ & _ & _ & _ & _ & [(H & _)|([H|H] & _)]); auto.
Qed.

Section ProcessFacts.

Variable adapter : nat -> OBD_MODE -> OBD_PARAM -> exchange.
Variable elm_open : string -> Z.
Variable can_open : string -> bool.

Lemma process_trace_refused (argv : list string) (o0 : list obdpid) :
  parse_args argv = None ->
  Process.process adapter elm_open can_open argv o0 w_init
  = (Process.Ends 1, mk_world (map EvStdout (usage (hd "" argv))) 0 None).
Proof.
  intros Hargs. unfold Process.process.
  rewrite (process_main_refused adapter elm_open can_open argv o0 w_init Hargs).
  unfold Process.crt_exit, open_streams. cbn [events exchanges pending w_init app].
  replace (count is_fopen (map EvStdout (usage (hd "" argv)))) with 0%nat
    by (unfold usage; reflexivity).
  cbn [Nat.sub repeat]. rewrite app_nil_r. reflexivity.
Qed.

Lemma process_trace_null (argv : list string) (device_name output_file : string)
    (o0 : list obdpid) :
  parse_args argv = Some (device_name, output_file) ->
  List.length o0 = 25%nat ->
  can_open output_file = false ->
  let x := adapter 0%nat OBD_MODE_1 0x03 in
  let run := Process.process adapter elm_open can_open argv o0 w_init in
  fst run = (if status_of x =? 0 then Process.Killed else Process.Ends (status_of x))
  /\ events (snd run)
     = [EvStdout ("initializing connection" ++ LF); EvInit device_name;
        EvSetTimeout 3000; EvStdout ("initializing vehicle info pids" ++ LF);
        EvStdout ("gathering data..." ++ LF); EvFopenNull output_file "w"]
       ++ null_entry_trace x 0x03.
Proof.
  intros Hargs Hlen Hopen x run. subst run. unfold Process.process.
  rewrite (process_main_null adapter elm_open can_open argv device_name output_file
             o0 w_init Hargs Hlen Hopen).
  cbv zeta. cbn [events exchanges w_init]. rewrite app_nil_l. fold x.
  destruct (null_entry_shape x 0x03) as (_ & _ & _ & _ & _ & _ & Ho & Hc & _).
  destruct (status_of x =? 0); [split; reflexivity|].
  unfold Process.crt_exit, open_streams. cbn [fst snd events].
  rewrite !count_app, Ho. cbn. rewrite app_nil_r. split; reflexivity.
Qed.

End ProcessFacts.

(** C3, as the code has it.  When [fopen] returns a stream, the report is
    opened once, before the first request, and closed exactly once, after
    the last request and the last reading, whether the sweep runs to its
    end or is interrupted: by [fclose(out)] when it runs to its end, and
    by the C runtime at [exit] when [QUERY_OR_ERR] returns 1 or 2 from
    [main]. *)
Theorem report_closed_once_when_opened
    (adapter : nat -> OBD_MODE -> OBD_PARAM -> exchange) (elm_open : string -> Z)
    (can_open : string -> bool)
    (argv : list string) (device_name output_file : string) (o0 : list obdpid) :
  parse_args argv = Some (device_name, output_file) ->
  List.length o0 = 25%nat ->
  can_open output_file = true ->
  let run := Process.process adapter elm_open can_open argv o0 w_init in
  let sweep := sweep_trace adapter 0 (filter active (main_catalog o0)) in
  exists (c : Z) (after : list event),
    fst run = Process.Ends c
    /\ events (snd run)
       = [EvStdout ("initializing connection" ++ LF); EvInit device_name;
          EvSetTimeout 3000; EvStdout ("initializing vehicle info pids" ++ LF);
          EvStdout ("gathering data..." ++ LF); EvFopen output_file "w"]
         ++ sweep ++ after
    /\ queried sweep = queried (events (snd run))
    /\ readings sweep = readings (events (snd run))
    /\ count is_fopen sweep = 0%nat /\ closes sweep = 0%nat
    /\ count is_fopen after = 0%nat /\ closes after = 1%nat
    /\ (c = 0 /\ after = [EvStdout ("done" ++ LF); EvFclose; EvShutdown]
        \/ (c = 1 \/ c = 2) /\ after = [EvExitClose])
    /\ count is_fopen (events (snd run)) = 1%nat
    /\ closes (events (snd run)) = 1%nat.
Proof.
  intros Hargs Hlen Hopen run sweep.
  destruct (process_trace_opened adapter elm_open can_open argv device_name
              output_file o0 Hargs Hlen Hopen) as [H1 H2].
  cbv zeta in H1, H2. fold run sweep in H1, H2.
  set (st := sweep_status adapter 0 (filter active (main_catalog o0))) in *.
  destruct (sweep_never_opens_or_closes adapter 0 (filter active (main_catalog o0)))
    as (Ho & _ & Hc). fold sweep in Ho, Hc.
  exists st, (if st =? 0 then [EvStdout ("done" ++ LF); EvFclose; EvShutdown]
              else [EvExitClose]).
  split; [exact H1|]. split; [exact H2|].
  rewrite H2, !queried_app, !readings_app, !count_app, !closes_app, Ho, Hc.
  destruct (sweep_status_range adapter 0 (filter active (main_catalog o0)))
    as [E|[E|E]]; fold st in E; rewrite E; cbn; rewrite ?app_nil_r;
    repeat split; auto.
Qed.

Lemma report_closed_once_when_opened_witness :
  exists (c : Z) (after : list event),
    fst (Process.process adapter_unplugged (fun _ => 3) fs_any
           ["elm327diag"; "-d"; "/dev/ttyUSB0"] (repeat stack_junk 25) w_init)
    = Process.Ends c
    /\ events (snd (Process.process adapter_unplugged (fun _ => 3) fs_any
                      ["elm327diag"; "-d"; "/dev/ttyUSB0"] (repeat stack_junk 25)
                      w_init))
       = [EvStdout ("initializing connection" ++ LF); EvInit "/dev/ttyUSB0";
          EvSetTimeout 3000; EvStdout ("initializing vehicle info pids" ++ LF);
          EvStdout ("gathering data..." ++ LF); EvFopen "carstats.csv" "w"]
         ++ sweep_trace adapter_unplugged 0
              (filter active (main_catalog (repeat stack_junk 25)))
         ++ after
    /\ queried (sweep_trace adapter_unplugged 0
                  (filter active (main_catalog (repeat stack_junk 25))))
       = queried (events (snd (Process.process adapter_unplugged (fun _ => 3) fs_any
                                 ["elm327diag"; "-d"; "/dev/ttyUSB0"]
                                 (repeat stack_junk 25) w_init)))
    /\ readings (sweep_trace adapter_unplugged 0
                   (filter active (main_catalog (repeat stack_junk 25))))
       = readings (events (snd (Process.process adapter_unplugged (fun _ => 3) fs_any
                                  ["elm327diag"; "-d"; "/dev/ttyUSB0"]
                                  (repeat stack_junk 25) w_init)))
    /\ count is_fopen (sweep_trace adapter_unplugged 0
                         (filter active (main_catalog (repeat stack_junk 25)))) = 0%nat
    /\ closes (sweep_trace adapter_unplugged 0
                 (filter active (main_catalog (repeat stack_junk 25)))) = 0%nat
    /\ count is_fopen after = 0%nat /\ closes after = 1%nat
    /\ (c = 0 /\ after = [EvStdout ("done" ++ LF); EvFclose; EvShutdown]
        \/ (c = 1 \/ c = 2) /\ after = [EvExitClose])
    /\ count is_fopen (events (snd (Process.process adapter_unplugged (fun _ => 3)
                                      fs_any ["elm327diag"; "-d"; "/dev/ttyUSB0"]
                                      (repeat stack_junk 25) w_init))) = 1%nat
    /\ closes (events (snd (Process.process adapter_unplugged (fun _ => 3) fs_any
                              ["elm327diag"; "-d"; "/dev/ttyUSB0"]
                              (repeat stack_junk 25) w_init))) = 1%nat.
Proof.
  exact (report_closed_once_when_opened adapter_unplugged (fun _ => 3) fs_any
           ["elm327diag"; "-d"; "/dev/ttyUSB0"] "/dev/ttyUSB0" "carstats.csv"
           (repeat stack_junk 25) eq_refl eq_refl eq_refl).
Defined.

(** C3, as the specification words it, fails on the run where [fopen]
    returns [NULL] and the first send fails: the sweep is reached (a
    request is sent) and [main] returns 1, but the report was never opened
    and is never closed. *)
Lemma report_never_opened_when_fopen_fails :
  let run := Process.process adapter_unplugged (fun _ => 3) fs_none
               ["elm327diag"; "-f"; "/nonexistent/a.csv"] (repeat stack_junk 25)
               w_init in
  fst run = Process.Ends 1
  /\ queried (events (snd run)) = [0x03]
  /\ count is_fopen (events (snd run)) = 0%nat
  /\ count is_fopen_null (events (snd run)) = 1%nat
  /\ closes (events (snd run)) = 0%nat
  /\ ~ (count is_fopen (events (snd run)) = 1%nat /\ closes (events (snd run)) = 1%nat).
Proof.
  vm_compute. repeat split. intros [H _]. discriminate H.
Qed.

(** X15. The ways the process ends.  A refused command line and an
    accepted one whose first send fails both end it with status 1; an
    accepted one whose first request is sent and not answered ends it with
    2.  It never ends with a status other than 0, 1 and 2; it ends with 0
    only when the command line is accepted and the report opened; and it
    is killed only when the command line is accepted and the report did
    not open. *)
Theorem process_exit_statuses
    (adapter : nat -> OBD_MODE -> OBD_PARAM -> exchange) (elm_open : string -> Z)
    (can_open : string -> bool) (argv : list string) (o0 : list obdpid) :
  List.length o0 = 25%nat ->
  let run := Process.process adapter elm_open can_open argv o0 w_init in
  let x := adapter 0%nat OBD_MODE_1 0x03 in
  (parse_args argv = None -> fst run = Process.Ends 1)
  /\ (parse_args argv <> None -> send_ok x = false -> fst run = Process.Ends 1)
  /\ (parse_args argv <> None -> send_ok x = true -> reply x = None ->
      fst run = Process.Ends 2)
  /\ (forall c, fst run = Process.Ends c -> c = 0 \/ c = 1 \/ c = 2)
  /\ (fst run = Process.Ends 0 ->
      exists d f, parse_args argv = Some (d, f) /\ can_open f = true)
  /\ (fst run = Process.Killed ->
      exists d f, parse_args argv = Some (d, f) /\ can_open f = false).
Proof.
  intros Hlen run x. subst run.
  destruct (parse_args argv) as [[d f]|] eqn:Hargs.
  - destruct (can_open f) eqn:Hopen.
    + destruct (process_trace_opened adapter elm_open can_open argv d f o0
                  Hargs Hlen Hopen) as [H1 _].
      cbv zeta in H1. rewrite H1.
      destruct (catalog_first_active o0 Hlen) as (e & l & He & Hc).
      rewrite He. cbn [sweep_status]. rewrite Hc. fold x.
      pose proof (sweep_status_range adapter 1 l) as Hr.
      split; [discriminate|]. split; [|split; [|split; [|split]]].
      * intros _ Hs. unfold status_of. rewrite Hs. reflexivity.
      * intros _ Hs Hrp. unfold status_of. rewrite Hs, Hrp. reflexivity.
      * intros c Hc'. injection Hc' as <-.
        destruct (status_of x =? 0) eqn:E; [exact Hr|].
        unfold status_of in *. destruct (send_ok x); [destruct (reply x)|]; auto.
      * intros _. exists d, f. split; [reflexivity|exact Hopen].
      * destruct (status_of x =? 0); discriminate.
    + destruct (process_trace_null adapter elm_open can_open argv d f o0
                  Hargs Hlen Hopen) as [H1 _].
      cbv zeta in H1. fold x in H1. rewrite H1.
      split; [discriminate|]. split; [|split; [|split; [|split]]].
      * intros _ Hs. unfold status_of. rewrite Hs. reflexivity.
      * intros _ Hs Hrp. unfold status_of. rewrite Hs, Hrp. reflexivity.
      * intros c Hc'. unfold status_of in *.
        destruct (send_ok x); [destruct (reply x)|]; cbn in Hc';
          try discriminate Hc'; injection Hc' as <-; auto.
      * intros H0. exfalso. unfold status_of in H0.
        destruct (send_ok x); [destruct (reply x)|]; discriminate H0.
      * intros _. exists d, f. split; [reflexivity|exact Hopen].
  - rewrite (process_trace_refused adapter elm_open can_open argv o0 Hargs).
    cbn [fst]. split; [reflexivity|].
    split; [intros H; contradiction|]. split; [intros H; contradiction|].
    split; [intros c Hc; injection Hc as <-; auto|].
    split; discriminate.
Qed.

Lemma process_exit_statuses_witness :
  fst (Process.process adapter_unplugged (fun _ => 3) fs_any ["elm327diag"; "-o"]
         (repeat stack_junk 25) w_init) = Process.Ends 1
  /\ fst (Process.process adapter_unplugged (fun _ => 3) fs_any ["elm327diag"]
            (repeat stack_junk 25) w_init) = Process.Ends 1.
Proof.
  split.
  - apply (proj1 (proj2 (process_exit_statuses adapter_unplugged (fun _ => 3) fs_any
                           ["elm327diag"; "-o"] (repeat stack_junk 25) eq_refl)));
      [discriminate|reflexivity].
  - apply (proj1 (process_exit_statuses adapter_unplugged (fun _ => 3) fs_any
                    ["elm327diag"] (repeat stack_junk 25) eq_refl)).
    reflexivity.
Defined.

(** X16. Once the command line is accepted, the process ends with status 0
    exactly when the report opens and the exchanges of the seven active
    entries of the catalog all go through; it has then written seven
    readings.  With every exchange answered and a report that does not
    open it is killed instead. *)
Theorem process_completes_iff
    (adapter : nat -> OBD_MODE -> OBD_PARAM -> exchange) (elm_open : string -> Z)
    (can_open : string -> bool)
    (argv : list string) (device_name output_file : string) (o0 : list obdpid) :
  parse_args argv = Some (device_name, output_file) ->
  List.length o0 = 25%nat ->
  let run := Process.process adapter elm_open can_open argv o0 w_init in
  let acts := filter active (main_catalog o0) in
  (fst run = Process.Ends 0
   <-> can_open output_file = true /\ all_answered adapter 0 acts = true)
  /\ (fst run = Process.Ends 0 -> List.length (readings (events (snd run))) = 7%nat)
  /\ (can_open output_file = false -> all_answered adapter 0 acts = true ->
      fst run = Process.Killed).
Proof.
  intros Hargs Hlen run acts. subst run.
  destruct (can_open output_file) eqn:Hopen.
  - destruct (process_trace_opened adapter elm_open can_open argv device_name
                output_file o0 Hargs Hlen Hopen) as [H1 H2].
    cbv zeta in H1, H2. fold acts in H1, H2. rewrite H1.
    assert (Hiff : Process.Ends (sweep_status adapter 0 acts) = @Process.Ends unit 0
                   <-> true = true /\ all_answered adapter 0 acts = true).
    { rewrite <- sweep_status_all_answered. split.
      - intros H. injection H as ->. split; reflexivity.
      - intros [_ ->]. reflexivity. }
    split; [exact Hiff|]. split; [|discriminate].
    intros H. apply Hiff in H as [_ H].
    pose proof H as Hst. apply sweep_status_all_answered in Hst.
    apply sweep_complete in H as (_ & Hr & _).
    rewrite H2, Hst, !readings_app, Hr, !length_app.
    rewrite <- (length_map fst (expected_readings _ _ _)), expected_readings_names,
      length_map. unfold acts. rewrite (catalog_active_count o0 Hlen). reflexivity.
  - destruct (process_trace_null adapter elm_open can_open argv device_name
                output_file o0 Hargs Hlen Hopen) as [H1 _].
    cbv zeta in H1. rewrite H1.
    assert (Hne : (if status_of (adapter 0%nat OBD_MODE_1 3) =? 0
                   then Process.Killed
                   else Process.Ends (status_of (adapter 0%nat OBD_MODE_1 3)))
                  <> @Process.Ends unit 0).
    { destruct (_ =? 0) eqn:E; [discriminate|].
      apply Z.eqb_neq in E. intros H. injection H as H. contradiction. }
    split; [split; [intros H; contradiction|intros [H _]; discriminate H]|].
    split; [intros H; contradiction|].
    intros _ Hall. unfold acts in Hall.
    destruct (catalog_first_active o0 Hlen) as (e & l & He & Hc).
    rewrite He in Hall. apply all_answered_cons in Hall as [Hs _].
    rewrite Hc in Hs. rewrite Hs. reflexivity.
Qed.

Lemma process_completes_iff_witness :
  fst (Process.process adapter_steady (fun _ => 3) fs_none
         ["elm327diag"; "-f"; "/nonexistent/a.csv"] (repeat stack_junk 25) w_init)
  = Process.Killed.
Proof.
  apply (proj2 (proj2 (process_completes_iff adapter_steady (fun _ => 3) fs_none
                         ["elm327diag"; "-f"; "/nonexistent/a.csv"]
                         DEFAULT_DEVICE_NAME "/nonexistent/a.csv"
                         (repeat stack_junk 25) eq_refl eq_refl)));
    reflexivity.
Defined.
